(** * A shallow embedding of the SHT3x-DIS driver [sht3xdis.py]

    The driver class [TempHumiditySensor] talks to the sensor over an
    SMBus handle, checks every 16-bit word it receives against a CRC-8,
    converts the raw words to physical values and logs them.

    Python integers are modelled as [Z], Python floats (IEEE binary64) as
    the kernel's primitive floats, Python strings as [string], numbers that
    may be either ([rate], sleep times) as [Q].  Methods of the class run
    in a state-and-exception monad over the object's fields and the outside
    world (bus, clock, console, file, database). *)

From Stdlib Require Import ZArith QArith List String Bool Lia.
From Stdlib Require Import RelationClasses DecimalString.
From Stdlib Require Import Floats.
Import ListNotations.

Local Open Scope Z_scope.

(* ================================================================== *)
(** * Exhaustive checks over an integer range *)

(** [all_from n lo p]: [p] holds on [lo, lo+1, ..., lo+n-1]. *)
Fixpoint all_from (n : nat) (lo : Z) (p : Z -> bool) : bool :=
  match n with
  | O => true
  | S k => p lo && all_from k (lo + 1) p
  end.

(* ================================================================== *)
(** * The CRC engine of the [crccheck] package

    [crc_eval] builds a [crccheck.crc.Crc] object.  The package is a
    third-party dependency and is not part of the repository; [process]
    and [final] below follow the package's generic bitwise implementation
    ([CrcBase.process], [CrcBase.final]), with the constructor's
    parameters kept as a record. *)

Module Crccheck.

Record Crc := mkCrc {
  width : Z;
  poly : Z;
  initvalue : Z;
  reflect_input : bool;
  reflect_output : bool;
  xor_output : Z;
  value : Z            (* the running register, [_value] *)
}.

(** [Crc(width, poly, initvalue=0x00, reflect_input=False,
        reflect_output=False, xor_output=0x00)]: the register starts at
    [initvalue]. *)
Definition new (width poly initvalue : Z) (reflect_input reflect_output : bool)
    (xor_output : Z) : Crc :=
  mkCrc width poly initvalue reflect_input reflect_output xor_output initvalue.

(** [reflectbitorder(width, value)]: bit [i] of the result is bit
    [width-1-i] of [value]. *)
Fixpoint reflect_bits (n : nat) (w v : Z) : Z :=
  match n with
  | O => 0
  | S k =>
      Z.lor (if Z.testbit v (Z.of_nat k) then Z.shiftl 1 (w - 1 - Z.of_nat k) else 0)
            (reflect_bits k w v)
  end.

Definition reflectbitorder (w v : Z) : Z := reflect_bits (Z.to_nat w) w v.

(** The inner [for i in range(0, 8)] loop: shift left, and xor the
    polynomial in when the high bit was set.  The register is not masked
    inside the loop. *)
Fixpoint shift_loop (n : nat) (highbit poly crc : Z) : Z :=
  match n with
  | O => crc
  | S k =>
      shift_loop k highbit poly
        (if Z.land crc highbit =? 0 then Z.shiftl crc 1
         else Z.lxor (Z.shiftl crc 1) poly)
  end.

(** The body of [for byte in data]. *)
Definition process_byte (reflect : bool) (shift highbit poly mask : Z)
    (crc byte : Z) : Z :=
  let byte := if reflect then reflectbitorder 8 byte else byte in
  let crc := Z.lxor crc (Z.shiftl byte shift) in
  Z.land (shift_loop 8 highbit poly crc) mask.

(** [CrcBase.process(data)]. *)
Definition process (c : Crc) (data : list Z) : Crc :=
  let crc := value c in
  let highbit := Z.shiftl 1 (width c - 1) in
  let mask := Z.lor (Z.shiftl (highbit - 1) 1) 1 in
  let shift := width c - 8 in
  let diff8 := - shift in
  let small := 0 <? diff8 in       (* narrower than a byte *)
  let mask := if small then 255 else mask in
  let crc := if small then Z.shiftl crc diff8 else crc in
  let highbit := if small then 128 else highbit in
  let poly' := if small then Z.shiftl (poly c) diff8 else poly c in
  let shift := if small then 0 else shift in
  let crc :=
    fold_left (process_byte (reflect_input c) shift highbit poly' mask) data crc in
  let crc := if small then Z.shiftr crc diff8 else crc in
  mkCrc (width c) (poly c) (initvalue c) (reflect_input c) (reflect_output c)
        (xor_output c) crc.

(** [CrcBase.final()]. *)
Definition final (c : Crc) : Z :=
  let crc := value c in
  let crc := if reflect_output c then reflectbitorder (width c) crc else crc in
  Z.lxor crc (xor_output c).

End Crccheck.

(** [TempHumiditySensor.crc_eval(data, _crc)] (a static method):
    [Crc(8, 0x31, initvalue=0xFF, reflect_input=False, xor_output=0x00)],
    with [reflect_output] left at its default. *)
Definition crc_eval (data : list Z) (_crc : Z) : bool :=
  let chksum := Crccheck.new 8 0x31 0xFF false false 0x00 in
  let chksum := Crccheck.process chksum data in
  let chk := Crccheck.final chksum in
  if chk =? _crc then true else false.

(** ** CRC-8 as the specification words it

    Polynomials over GF(2) are bit vectors: bit [i] is the coefficient of
    [x^i].  The CRC of a message is the remainder of the message, shifted
    up by the width, modulo the generator; the initial value is added to
    the first [width] bits; nothing is reflected and nothing is added to
    the result. *)

(** [gf2_reduce n w g a]: cancel the coefficients [w+n-1 .. w] of [a] with
    multiples of the generator [g] (of degree [w]), highest first. *)
Fixpoint gf2_reduce (n : nat) (w g a : Z) : Z :=
  match n with
  | O => a
  | S k =>
      let i := Z.of_nat k in
      gf2_reduce k w g (if Z.testbit a (w + i) then Z.lxor a (Z.shiftl g i) else a)
  end.

(** The message as one number, first byte most significant. *)
Definition message_bits (data : list Z) : Z :=
  fold_left (fun acc b => acc * 256 + b) data 0.

(** CRC-8, polynomial 0x31 (generator x^8 + x^5 + x^4 + 1 = 0x131),
    initial value 0xFF, no reflection, no output xor. *)
Definition crc8_spec (data : list Z) : Z :=
  let nbits := 8 * Z.of_nat (List.length data) in
  let dividend :=
    Z.lxor (Z.shiftl (message_bits data) 8) (Z.shiftl 0xFF nbits) in
  gf2_reduce (Z.to_nat nbits) 8 0x131 dividend.

(* ================================================================== *)
(** * Python floats and [round(x, 3)] *)

Definition float_of_Z (z : Z) : float :=
  if z <? 0 then PrimFloat.opp (PrimFloat.of_uint63 (Uint63.of_Z (- z)))
  else PrimFloat.of_uint63 (Uint63.of_Z z).

(** The integer nearest to [n / d] ([d > 0]), ties to the even one. *)
Definition round_half_even (n d : Z) : Z :=
  let (k, r) := Z.div_eucl n d in
  match 2 * r ?= d with
  | Lt => k
  | Gt => k + 1
  | Eq => if Z.even k then k else k + 1
  end.

(** The double nearest to the decimal [k / 1000]: the value of the
    literal, and (division being correctly rounded) of the quotient of the
    two exactly represented integers, for [|k| < 2^53]. *)
Definition decimal3 (k : Z) : float :=
  PrimFloat.div (float_of_Z k) (float_of_Z 1000).

(** Python's [round(x, 3)] on a float: the exact binary value
    [m * 2^e] of [x] is rounded to three decimals, ties to even, and the
    double nearest to that decimal is returned with the sign of [x];
    zeros, infinities and NaN round to themselves.  The model is exact for
    [|x| < 2^43], far beyond the values the sensor can produce. *)
Definition py_round3 (x : float) : float :=
  match Prim2SF x with
  | S754_finite s m e =>
      let k := if 0 <=? e then Zpos m * 2 ^ e * 1000
               else round_half_even (Zpos m * 1000) (2 ^ (- e)) in
      if s then PrimFloat.opp (decimal3 k) else decimal3 k
  | _ => x
  end.

(** [s / (2 ** 16 - 1)]: true division of two ints. *)
Definition code_fraction (s : Z) : float :=
  PrimFloat.div (float_of_Z s) (float_of_Z (2 ^ 16 - 1)).

(** The three conversions of [process_data]. *)
Definition raw_to_temp_f (s_t : Z) : float :=
  py_round3 (PrimFloat.add (float_of_Z (-49))
               (PrimFloat.mul 315%float (code_fraction s_t))).

Definition raw_to_temp_c (s_t : Z) : float :=
  py_round3 (PrimFloat.add (float_of_Z (-45))
               (PrimFloat.mul 175%float (code_fraction s_t))).

Definition raw_to_rh (s_rh : Z) : float :=
  py_round3 (PrimFloat.mul 100%float (code_fraction s_rh)).

(** ** The conversions as the specification words them

    The real number [a + b * code / 65535], rounded to a whole number of
    thousandths, as a double. *)
Definition thousandths (a b code : Z) : Z :=
  round_half_even ((a * 65535 + b * code) * 1000) 65535.

Definition spec_temp_c (code : Z) : float := decimal3 (thousandths (-45) 175 code).
Definition spec_temp_f (code : Z) : float := decimal3 (thousandths (-49) 315 code).
Definition spec_rh (code : Z) : float := decimal3 (thousandths 0 100 code).

(** ** Rounding by shifts

    When the divisor is a power of two the quotient and the remainder of
    [round_half_even] are a shift and a mask.  [py_round3] only divides by
    powers of two; the exhaustive checks below run on this form. *)
Definition round_shift (n k : Z) : Z :=
  let q := Z.shiftr n k in
  let r := Z.land n (Z.ones k) in
  match 2 * r ?= Z.shiftl 1 k with
  | Lt => q
  | Gt => q + 1
  | Eq => if Z.even q then q else q + 1
  end.

Definition py_round3_shift (x : float) : float :=
  match Prim2SF x with
  | S754_finite s m e =>
      let k := if 0 <=? e then Zpos m * 2 ^ e * 1000
               else round_shift (Zpos m * 1000) (- e) in
      if s then PrimFloat.opp (decimal3 k) else decimal3 k
  | _ => x
  end.

(** One raw code: the three conversions of the source against the three
    of the specification, as floats (Leibniz equality, so [-0.0] and [0.0]
    differ).  A notation, so that the check and its uses agree letter for
    letter. *)
Abbreviation conversions_agree :=
  (fun code : Z =>
     PrimFloat.Leibniz.eqb
       (py_round3_shift (PrimFloat.add (float_of_Z (-45))
                           (PrimFloat.mul 175%float (code_fraction code))))
       (spec_temp_c code)
     && PrimFloat.Leibniz.eqb
       (py_round3_shift (PrimFloat.add (float_of_Z (-49))
                           (PrimFloat.mul 315%float (code_fraction code))))
       (spec_temp_f code)
     && PrimFloat.Leibniz.eqb
       (py_round3_shift (PrimFloat.mul 100%float (code_fraction code)))
       (spec_rh code)) (only parsing).

(** One payload: the package's CRC against the polynomial remainder. *)
Abbreviation crc_agrees :=
  (fun b0 b1 : Z =>
     Crccheck.final
       (Crccheck.process (Crccheck.new 8 0x31 0xFF false false 0x00) [b0; b1])
     =? crc8_spec [b0; b1]) (only parsing).

(* ================================================================== *)
(** * The world the driver runs in *)

(** Exceptions the modelled code can raise. *)
Inductive PyError :=
| AttributeError (name : string)      (* a class attribute that is not there *)
| IndexError                          (* a list index out of range *)
| UnboundLocalError (name : string)   (* a local read before assignment *)
| SystemExit (msg : string)           (* [sys.exit] *)
| OSError.                            (* the bus has nothing to deliver *)

(** What the driver does to the outside, in the order it does it. *)
Inductive Event :=
| BusWrite (addr cmd val : Z)         (* [bus.write_byte_data] *)
| BusRead (addr cmd len : Z)          (* [bus.read_i2c_block_data] *)
| Sleep (secs : Q)                    (* [time.sleep] *)
| Print (msg : string)                (* [print] *)
| FileWrite (path fmode text : string)   (* [open], [write], [close] *)
| SqlConnect (host : string) (port : Z) (db tb creds : string)
| SqlQuery (query : string).

(** The object's fields, the class variables the methods touch, and the
    world: the trace of events so far (oldest first), the frames the bus
    will deliver to the coming block reads, and how many times the clock
    has been asked. *)
Record State := mkState {
  addr : Z;
  mode : string;
  rate : Q;
  accuracy : string;
  blocking : bool;
  Tready : bool;
  RHready : bool;
  T_degF : float;
  T_degC : float;
  RH : float;
  IDX : Z;
  LOGGING_PATH : string;
  SQL_CREDS_PATH : string;
  trace : list Event;
  bus_in : list (list Z);
  clock_reads : nat
}.

Definition upd_mode (v : string) (s : State) : State :=
  mkState (addr s) v (rate s) (accuracy s) (blocking s) (Tready s) (RHready s)
    (T_degF s) (T_degC s) (RH s) (IDX s) (LOGGING_PATH s) (SQL_CREDS_PATH s)
    (trace s) (bus_in s) (clock_reads s).
Definition upd_rate (v : Q) (s : State) : State :=
  mkState (addr s) (mode s) v (accuracy s) (blocking s) (Tready s) (RHready s)
    (T_degF s) (T_degC s) (RH s) (IDX s) (LOGGING_PATH s) (SQL_CREDS_PATH s)
    (trace s) (bus_in s) (clock_reads s).
Definition upd_accuracy (v : string) (s : State) : State :=
  mkState (addr s) (mode s) (rate s) v (blocking s) (Tready s) (RHready s)
    (T_degF s) (T_degC s) (RH s) (IDX s) (LOGGING_PATH s) (SQL_CREDS_PATH s)
    (trace s) (bus_in s) (clock_reads s).
Definition upd_blocking (v : bool) (s : State) : State :=
  mkState (addr s) (mode s) (rate s) (accuracy s) v (Tready s) (RHready s)
    (T_degF s) (T_degC s) (RH s) (IDX s) (LOGGING_PATH s) (SQL_CREDS_PATH s)
    (trace s) (bus_in s) (clock_reads s).
Definition upd_Tready (v : bool) (s : State) : State :=
  mkState (addr s) (mode s) (rate s) (accuracy s) (blocking s) v (RHready s)
    (T_degF s) (T_degC s) (RH s) (IDX s) (LOGGING_PATH s) (SQL_CREDS_PATH s)
    (trace s) (bus_in s) (clock_reads s).
Definition upd_RHready (v : bool) (s : State) : State :=
  mkState (addr s) (mode s) (rate s) (accuracy s) (blocking s) (Tready s) v
    (T_degF s) (T_degC s) (RH s) (IDX s) (LOGGING_PATH s) (SQL_CREDS_PATH s)
    (trace s) (bus_in s) (clock_reads s).
Definition upd_T_degF (v : float) (s : State) : State :=
  mkState (addr s) (mode s) (rate s) (accuracy s) (blocking s) (Tready s) (RHready s)
    v (T_degC s) (RH s) (IDX s) (LOGGING_PATH s) (SQL_CREDS_PATH s)
    (trace s) (bus_in s) (clock_reads s).
Definition upd_T_degC (v : float) (s : State) : State :=
  mkState (addr s) (mode s) (rate s) (accuracy s) (blocking s) (Tready s) (RHready s)
    (T_degF s) v (RH s) (IDX s) (LOGGING_PATH s) (SQL_CREDS_PATH s)
    (trace s) (bus_in s) (clock_reads s).
Definition upd_RH (v : float) (s : State) : State :=
  mkState (addr s) (mode s) (rate s) (accuracy s) (blocking s) (Tready s) (RHready s)
    (T_degF s) (T_degC s) v (IDX s) (LOGGING_PATH s) (SQL_CREDS_PATH s)
    (trace s) (bus_in s) (clock_reads s).
Definition upd_IDX (v : Z) (s : State) : State :=
  mkState (addr s) (mode s) (rate s) (accuracy s) (blocking s) (Tready s) (RHready s)
    (T_degF s) (T_degC s) (RH s) v (LOGGING_PATH s) (SQL_CREDS_PATH s)
    (trace s) (bus_in s) (clock_reads s).
Definition upd_trace (v : list Event) (s : State) : State :=
  mkState (addr s) (mode s) (rate s) (accuracy s) (blocking s) (Tready s) (RHready s)
    (T_degF s) (T_degC s) (RH s) (IDX s) (LOGGING_PATH s) (SQL_CREDS_PATH s)
    v (bus_in s) (clock_reads s).
Definition upd_bus_in (v : list (list Z)) (s : State) : State :=
  mkState (addr s) (mode s) (rate s) (accuracy s) (blocking s) (Tready s) (RHready s)
    (T_degF s) (T_degC s) (RH s) (IDX s) (LOGGING_PATH s) (SQL_CREDS_PATH s)
    (trace s) v (clock_reads s).
Definition upd_clock_reads (v : nat) (s : State) : State :=
  mkState (addr s) (mode s) (rate s) (accuracy s) (blocking s) (Tready s) (RHready s)
    (T_degF s) (T_degC s) (RH s) (IDX s) (LOGGING_PATH s) (SQL_CREDS_PATH s)
    (trace s) (bus_in s) v.

(** ** The monad: state that survives an exception *)

Inductive outcome (A : Type) :=
| Returns (a : A)
| Raises (e : PyError).
Arguments Returns {A} a.
Arguments Raises {A} e.

Definition M (A : Type) : Type := State -> outcome A * State.

Definition ret {A} (a : A) : M A := fun s => (Returns a, s).
Definition raise {A} (e : PyError) : M A := fun s => (Raises e, s).
Definition bind {A B} (m : M A) (k : A -> M B) : M B :=
  fun s =>
    match m s with
    | (Returns a, s') => k a s'
    | (Raises e, s') => (Raises e, s')
    end.
Definition gets {A} (f : State -> A) : M A := fun s => (Returns (f s), s).
Definition modify (f : State -> State) : M unit := fun s => (Returns tt, f s).

Declare Scope py_scope.
Delimit Scope py_scope with py.
Notation "x <- c1 ;; c2" := (bind c1 (fun x => c2))
  (at level 61, c1 at next level, right associativity) : py_scope.
Notation "c1 ;; c2" := (bind c1 (fun _ => c2))
  (at level 61, right associativity) : py_scope.
Local Open Scope py_scope.

(** An [if] with no [else]. *)
Definition when (b : bool) (m : M unit) : M unit := if b then m else ret tt.

Definition emit (e : Event) : M unit :=
  modify (fun s => upd_trace (trace s ++ [e]) s).

Definition print (msg : string) : M unit := emit (Print msg).
Definition sleep (secs : Q) : M unit := emit (Sleep secs).

(** [self.bus.write_byte_data(self.addr, cmd, val)]. *)
Definition write_byte_data (a cmd val : Z) : M unit := emit (BusWrite a cmd val).

(** [self.bus.read_i2c_block_data(self.addr, cmd, n)]: the next frame of
    the bus, at most [n] bytes of it. *)
Definition read_i2c_block_data (a cmd n : Z) : M (list Z) :=
  emit (BusRead a cmd n) ;;
  pending <- gets bus_in ;;
  match pending with
  | [] => raise OSError
  | frame :: rest =>
      modify (upd_bus_in rest) ;;
      ret (firstn (Z.to_nat n) frame)
  end.

(** [l[i]]. *)
Definition item {A} (l : list A) (i : nat) : M A :=
  match nth_error l i with
  | Some v => ret v
  | None => raise IndexError
  end.

(* ================================================================== *)
(** * [class TempHumiditySensor] *)

Local Open Scope string_scope.

(** The double-quote character and the newline, for the messages. *)
Definition dq : string := String (Ascii.ascii_of_nat 34) EmptyString.
Definition nl : string := String (Ascii.ascii_of_nat 10) EmptyString.

(** The command constants of the class body, by attribute name. *)
Definition class_attrs : list (string * list Z) :=
  [ ("SINGLE_SHOT_CSOFF_HIGHR", [0x2C; 0x06]);
    ("SINGLE_SHOT_CSOFF_MEDR", [0x2C; 0x0D]);
    ("SINGLE_SHOT_CSOFF_LOWR", [0x2C; 0x10]);
    ("SINGLE_SHOT_CSON_HIGHR", [0x24; 0x00]);
    ("SINGLE_SHOT_CSON_MEDR", [0x24; 0x0B]);
    ("SINGLE_SHOT_CSON_LOWR", [0x24; 0x16]);
    ("PERIODIC_05MPS_HIGHR", [0x20; 0x32]);
    ("PERIODIC_05MPS_MEDR", [0x20; 0x24]);
    ("PERIODIC_05MPS_LOWR", [0x20; 0x2F]);
    ("PERIODIC_1MPS_HIGHR", [0x21; 0x30]);
    ("PERIODIC_1MPS_MEDR", [0x21; 0x26]);
    ("PERIODIC_1MPS_LOWR", [0x21; 0x2D]);
    ("PERIODIC_2MPS_HIGHR", [0x22; 0x36]);
    ("PERIODIC_2MPS_MEDR", [0x22; 0x20]);
    ("PERIODIC_2MPS_LOWR", [0x22; 0x2B]);
    ("PERIODIC_4MPS_HIGHR", [0x23; 0x34]);
    ("PERIODIC_4MPS_MEDR", [0x23; 0x22]);
    ("PERIODIC_4MPS_LOWR", [0x23; 0x29]);
    ("PERIODIC_10MPS_HIGHR", [0x27; 0x37]);
    ("PERIODIC_10MPS_MEDR", [0x27; 0x21]);
    ("PERIODIC_10MPS_LOWR", [0x27; 0x2A]);
    ("FETCH_DATA", [0xE0; 0x00]);
    ("ART_ENABLE", [0x2B; 0x32]);
    ("BREAK", [0x30; 0x93]);
    ("RESET", [0x30; 0xA2]);
    ("HEATER_ENABLE", [0x30; 0x6D]);
    ("HEATER_DISABLE", [0x30; 0x66]);
    ("STATUS", [0xF3; 0x2D]);
    ("CLEAR_STATUS", [0x30; 0x41]) ]%Z.

Fixpoint assoc (name : string) (l : list (string * list Z)) : option (list Z) :=
  match l with
  | [] => None
  | (k, v) :: rest => if k =? name then Some v else assoc name rest
  end.

(** [TempHumiditySensor.<name>]. *)
Definition class_attr (name : string) : M (list Z) :=
  match assoc name class_attrs with
  | Some v => ret v
  | None => raise (AttributeError name)
  end.

(** [self.bus.write_byte_data(self.addr, TempHumiditySensor.<n0>[0],
    TempHumiditySensor.<n1>[1])]: the arguments are evaluated left to
    right, then the bus is written. *)
Definition send_command (n0 n1 : string) : M unit :=
  a <- gets addr ;;
  c0 <- class_attr n0 ;;
  x <- item c0 0 ;;
  c1 <- class_attr n1 ;;
  y <- item c1 1 ;;
  write_byte_data a x y.

(** [__init__(i2cbus, addr)]: a fresh object in a given world. *)
Definition init (a : Z) (log_path creds_path : string) (frames : list (list Z)) : State :=
  mkState a "single-shot" 1 "med" true false false 0%float 0%float 0%float
          0 log_path creds_path [] frames 0.

Definition invalid_accuracy_msg : string :=
  "WARNING: Invalid accuracy parameter supplied. Valid options are " ++ dq ++ "low"
  ++ dq ++ ", " ++ dq ++ "med" ++ dq ++ " or " ++ dq ++ "high" ++ dq ++ "."
  ++ "Using default value of " ++ dq ++ "med" ++ dq.

Definition valid_accuracy (acc : string) : bool :=
  negb (negb (acc =? "med") && negb (acc =? "low") && negb (acc =? "high")).

Definition valid_rate (r : Q) : bool :=
  negb (negb (Qeq_bool r (1 # 2)) && negb (Qeq_bool r 1) && negb (Qeq_bool r 2)
        && negb (Qeq_bool r 4) && negb (Qeq_bool r 10)).

(** [set_mode(mode, rate=None, acc="med", blocking=False)]. *)
Definition set_mode (mode : string) (rate : option Q) (acc : string)
    (blocking : bool) : M unit :=
  if mode =? "single-shot" then
    modify (upd_mode "single-shot") ;;
    when (match rate with Some _ => true | None => false end)
      (print "INFO: Sample rate argument will be ignored in single-shot measurement mode") ;;
    (if negb (valid_accuracy acc) then
       print invalid_accuracy_msg ;;
       modify (upd_accuracy "med")
     else modify (upd_accuracy acc)) ;;
    modify (upd_blocking blocking)
  else if mode =? "periodic" then
    modify (upd_mode "periodic") ;;
    (match rate with
     | None =>
         print "INFO: Sample rate argument not supplied; using default value of 1" ;;
         modify (upd_rate 1)
     | Some r =>
         if negb (valid_rate r) then
           print ("WARNING: Invalid sample rate argument supplied. Valid options are 0.5, 1, 2, 4 and 10. "
                  ++ "Using default value of 1.") ;;
           modify (upd_rate 1)
         else modify (upd_rate r)
     end) ;;
    (if negb (valid_accuracy acc) then
       print invalid_accuracy_msg ;;
       modify (upd_accuracy "med")
     else modify (upd_accuracy acc)) ;;
    when blocking
      (print "WARNING: Blocking is not available for periodic sampling mode." ;;
       modify (upd_blocking false))
  else
    raise (SystemExit ("ERROR: Invalid mode parameter passed.  Valid options are "
                       ++ dq ++ "single-shot" ++ dq ++ " or " ++ dq ++ "periodic" ++ dq)).

(** [process_data(data)]: each channel is checked and converted on its
    own; the result is the pair of verdicts [[ret1, ret2]]. *)
Definition process_data (data : list Z) : M (list bool) :=
  d0 <- item data 0 ;;
  d1 <- item data 1 ;;
  d2 <- item data 2 ;;
  let temp_chk := crc_eval [d0; d1] d2 in
  d3 <- item data 3 ;;
  d4 <- item data 4 ;;
  d5 <- item data 5 ;;
  let rh_chk := crc_eval [d3; d4] d5 in
  ret1 <- (if negb temp_chk then
             print "WARNING: Checksum failed on temperature value reported by sensor!" ;;
             ret false
           else
             let s_t := Z.lor (Z.shiftl d0 8) d1 in
             modify (upd_T_degF (raw_to_temp_f s_t)) ;;
             modify (upd_T_degC (raw_to_temp_c s_t)) ;;
             ret true) ;;
  ret2 <- (if negb rh_chk then
             print "WARNING: Checksum failed on humidity value reported by sensor!" ;;
             ret false
           else
             let s_rh := Z.lor (Z.shiftl d3 8) d4 in
             modify (upd_RH (raw_to_rh s_rh)) ;;
             ret true) ;;
  ret [ret1; ret2].

(** [fetch_data()]. *)
Definition fetch_data : M unit :=
  sleep (5 # 100) ;;
  m <- gets mode ;;
  data <- (if m =? "single-shot" then
             a <- gets addr ;;
             read_i2c_block_data a 0 6
           else if m =? "periodic" then
             send_command "FETCH_DATA" "FETCH_DATA" ;;
             sleep (1 # 10) ;;
             a <- gets addr ;;
             read_i2c_block_data a 0 6
           else raise (UnboundLocalError "data")) ;;
  r <- process_data data ;;
  r0 <- item r 0 ;;
  modify (upd_Tready r0) ;;
  r1 <- item r 1 ;;
  modify (upd_RHready r1).

(** One accuracy branch of the single-shot half of [init_read]. *)
Definition single_shot_read (cson csoff : string) : M unit :=
  b <- gets blocking ;;
  if b then send_command cson cson ;; fetch_data
  else send_command csoff csoff.

(** One accuracy branch of the periodic half of [init_read]: the five
    attribute-name pairs are those of the five [write_byte_data] calls. *)
Definition periodic_read (c05 c1 c2 c4 c10 : string * string) : M unit :=
  r <- gets rate ;;
  if Qeq_bool r (1 # 2) then send_command (fst c05) (snd c05)
  else if Qeq_bool r 1 then send_command (fst c1) (snd c1)
  else if Qeq_bool r 2 then send_command (fst c2) (snd c2)
  else if Qeq_bool r 4 then send_command (fst c4) (snd c4)
  else if Qeq_bool r 10 then send_command (fst c10) (snd c10)
  else ret tt.

(** [init_read()]. *)
Definition init_read : M unit :=
  m <- gets mode ;;
  acc <- gets accuracy ;;
  if m =? "single-shot" then
    if acc =? "high" then
      single_shot_read "SINGLE_SHOT_CSON_HIGHR" "SINGLE_SHOT_CSOFF_HIGHR"
    else if acc =? "med" then
      single_shot_read "SINGLE_SHOT_CSON_MEDR" "SINGLE_SHOT_CSOFF_MEDR"
    else if acc =? "low" then
      single_shot_read "SINGLE_SHOT_CSON_LOWR" "SINGLE_SHOT_CSOFF_LOWR"
    else ret tt
  else if m =? "periodic" then
    if acc =? "high" then
      periodic_read
        ("PERIODIC_05_MPS_HIGHR", "PERIODIC_05MPS_HIGHR")
        ("PERIODIC_1MPS_HIGHR", "PERIODIC_1MPS_HIGHR")
        ("PERIODIC_2MPS_HIGHR", "PERIODIC_2MPS_HIGHR")
        ("PERIODIC_4MPS_HIGHR", "PERIODIC_4MPS_HIGHR")
        ("PERIODIC_10MPS_HIGHR", "PERIODIC_10MPS_HIGHR")
    else if acc =? "med" then
      periodic_read
        ("PERIODIC_05MPS_MEDR", "PERIODIC_05MPS_MEDR")
        ("PERIODIC_1MPS_MEDR", "PERIODIC_1MPS_MEDR")
        ("PERIODIC_2MPS_MEDR", "PERIODIC_2MPS_MEDR")
        ("PERIODIC_4MPS_MEDR", "PERIODIC_4MPS_MEDR")
        ("PERIODIC_10MPS_MEDR", "PERIODIC_10MPS_MEDR")
    else if acc =? "low" then
      periodic_read
        ("PERIODIC_05MPS_LOWR", "PERIODIC_05MPS_LOWR")
        ("PERIODIC_1MPS_LOWR", "PERIODIC_1MPS_LOWR")
        ("PERIODIC_2MPS_LOWR", "PERIODIC_2MPS_LOWR")
        ("PERIODIC_4MPS_LOWR", "PERIODIC_4MPS_LOWR")
        ("PERIODIC_10MPS_LOWR", "PERIODIC_10MPS_LOWR")
    else ret tt
  else ret tt.

(** [stop_read()]. *)
Definition stop_read : M unit :=
  m <- gets mode ;;
  when (m =? "periodic")
    (send_command "BREAK" "BREAK" ;;
     sleep (5 # 100) ;;
     print "Break command sent to sensor").

(** [isready()]. *)
Definition isready : M bool :=
  t <- gets Tready ;;
  h <- gets RHready ;;
  if t && h then ret true else ret false.

(** The tail shared by the two successful branches of [get_sample]:
    clear both flags, then append the temperature and the humidity. *)
Definition take_sample (degf : bool) : M (list (option float)) :=
  modify (upd_Tready false) ;;
  modify (upd_RHready false) ;;
  t <- (if degf then gets T_degF else gets T_degC) ;;
  h <- gets RH ;;
  ret [Some t; Some h].

(** [get_sample(degf=True)]. *)
Definition get_sample (degf : bool) : M (list (option float)) :=
  t <- gets Tready ;;
  h <- gets RHready ;;
  if t && h then take_sample degf
  else
    fetch_data ;;
    t <- gets Tready ;;
    h <- gets RHready ;;
    if t && h then take_sample degf
    else ret [None; None].

(** [get_temp(degf=True)]. *)
Definition get_temp (degf : bool) : M float :=
  t <- gets Tready ;;
  when t (modify (upd_Tready false)) ;;
  if degf then gets T_degF else gets T_degC.

(** [get_rh()]. *)
Definition get_rh : M float :=
  h <- gets RHready ;;
  when h (modify (upd_RHready false)) ;;
  gets RH.

(** [toggle_heater(state)]. *)
Definition toggle_heater (state : bool) : M unit :=
  if state then send_command "HEATER_ENABLE" "HEATER_ENABLE"
  else send_command "HEATER_DISABLE" "HEATER_DISABLE".

(** [reset()]. *)
Definition reset : M unit :=
  send_command "RESET" "RESET" ;;
  print "Reset command sent to sensor".

(** [get_status_byte()]. *)
Definition get_status_byte : M Z :=
  send_command "STATUS" "STATUS" ;;
  sleep (5 # 100) ;;
  a <- gets addr ;;
  data <- read_i2c_block_data a 0 3 ;;
  d0 <- item data 0 ;;
  d1 <- item data 1 ;;
  d2 <- item data 2 ;;
  if crc_eval [d0; d1] d2 then ret (Z.lor (Z.shiftl d0 8) d1)
  else ret 0xFFFF%Z.

Definition checksum_failed_msg : string :=
  "WARNING: Checksum failed on status register".

(** [alert_status()]. *)
Definition alert_status : M bool :=
  status_byte <- get_status_byte ;;
  if negb (status_byte =? 0xFFFF)%Z then
    let status_bit := Z.shiftr (Z.land status_byte 0x8000) 15 in
    if (status_bit =? 1)%Z then print "Alert pending!" ;; ret true
    else ret false
  else print checksum_failed_msg ;; ret false.

(** [ret[i] = v] on a list. *)
Fixpoint set_item {A} (l : list A) (i : nat) (v : A) : list A :=
  match l, i with
  | [], _ => []
  | _ :: rest, O => v :: rest
  | x :: rest, S j => x :: set_item rest j v
  end.

(** [get_alert()]. *)
Definition get_alert : M (list string) :=
  let ret0 := ["null"; "null"; "null"] in
  status_byte <- get_status_byte ;;
  if negb (status_byte =? 0xFFFF)%Z then
    let talert := Z.shiftr (Z.land status_byte 0x200) 10 in
    let rhalert := Z.shiftr (Z.land status_byte 0x400) 11 in
    let resetalert := Z.shiftr (Z.land status_byte 0x08) 4 in
    ret1 <- (if (talert =? 1)%Z then
               print "Temperature tracking alert!" ;; ret (set_item ret0 0 "temp_alert")
             else ret ret0) ;;
    ret2 <- (if (rhalert =? 1)%Z then
               print "Humidity tracking alert!" ;; ret (set_item ret1 1 "rh_alert")
             else ret ret1) ;;
    ret3 <- (if (resetalert =? 1)%Z then
               print "System reset detected" ;; ret (set_item ret2 2 "reset_alert")
             else ret ret2) ;;
    send_command "CLEAR_STATUS" "CLEAR_STATUS" ;;
    sleep (5 # 100) ;;
    ret ret3
  else
    print checksum_failed_msg ;;
    ret ret0.

(** [command_status()]. *)
Definition command_status : M bool :=
  status_byte <- get_status_byte ;;
  if negb (status_byte =? 0xFFFF)%Z then
    let cmd := Z.shiftr (Z.land status_byte 0x02) 1 in
    if (cmd =? 0)%Z then
      print "Last command to sensor completed successfully" ;; ret true
    else print "Last command to sensor did not complete" ;; ret false
  else print checksum_failed_msg ;; ret false.

(** [chksum_status()]. *)
Definition chksum_status : M bool :=
  status_byte <- get_status_byte ;;
  if negb (status_byte =? 0xFFFF)%Z then
    let chk := Z.land status_byte 0x01 in
    if (chk =? 0)%Z then print "Write data checksum was correct" ;; ret true
    else print "Write data checksum failed" ;; ret false
  else print checksum_failed_msg ;; ret false.

(** [get_heater_status()]. *)
Definition get_heater_status : M bool :=
  status_byte <- get_status_byte ;;
  if negb (status_byte =? 0xFFFF)%Z then
    let heater := Z.shiftr (Z.land status_byte 0x2000) 13 in
    if (heater =? 1)%Z then print "Heater is ON" ;; ret true
    else print "Heater is OFF" ;; ret false
  else print checksum_failed_msg ;; ret false.

(* ================================================================== *)
(** * The logging loops *)

Section Logging.

(** The clock and the float printer belong to the Python runtime:
    [strftime_now n] is what [datetime.now().strftime(...)] gives the
    [n]-th time it is asked, [str_float] is [str] on a float. *)
Variable strftime_now : nat -> string.
Variable str_float : float -> string.

Definition now : M string :=
  n <- gets clock_reads ;;
  modify (upd_clock_reads (S n)) ;;
  ret (strftime_now n).

(** [str(v)] for a float or [None]. *)
Definition py_str (v : option float) : string :=
  match v with
  | Some f => str_float f
  | None => "None"
  end.

(** The line a round writes for a sample read off the state [s]:
    [dtime + ',' + str(temp) + ',' + str(rh) + '\n']. *)
Definition log_line (s : State) : string :=
  strftime_now (clock_reads s) ++ "," ++ py_str (Some (T_degF s)) ++ ","
  ++ py_str (Some (RH s)) ++ nl.

(** The first [n] rounds of a [while True:] loop. *)
Fixpoint while_true (n : nat) (body : M unit) : M unit :=
  match n with
  | O => ret tt
  | S k => body ;; while_true k body
  end.

(** The body of the loop of [start_logging_file]. *)
Definition logging_file_body : M unit :=
  sample <- get_sample true ;;
  temp <- item sample 0 ;;
  rh <- item sample 1 ;;
  dtime <- now ;;
  path <- gets LOGGING_PATH ;;
  emit (FileWrite path "a" (dtime ++ "," ++ py_str temp ++ "," ++ py_str rh ++ nl)).

(** The part of either method that runs once, before the loop: the
    one-time [init_read] guarded by the class variable [IDX]. *)
Definition first_init_read : M unit :=
  i <- gets IDX ;;
  when (i =? 0)%Z
    (init_read ;;
     i <- gets IDX ;;
     modify (upd_IDX (i + 1)%Z)).

(** [start_logging_file()], cut after [n] rounds of its loop. *)
Definition start_logging_file (n : nat) : M unit :=
  m <- gets mode ;;
  when (negb (m =? "periodic")) (set_mode "periodic" (Some 1%Q) "med" false) ;;
  print "Logging to file started!" ;;
  first_init_read ;;
  while_true n logging_file_body.

(** The body of the loop of [start_logging_sql]. *)
Definition logging_sql_body (tb : string) (log_interval : Q) : M unit :=
  sample <- get_sample true ;;
  temp <- item sample 0 ;;
  rh <- item sample 1 ;;
  dtime <- now ;;
  path <- gets LOGGING_PATH ;;
  emit (FileWrite path "w" (dtime ++ "," ++ py_str temp ++ "," ++ py_str rh ++ nl)) ;;
  emit (SqlQuery ("INSERT INTO " ++ tb ++ " (time, temp, rh) VALUES (" ++ "'" ++ dtime
                  ++ "'" ++ "," ++ py_str temp ++ "," ++ py_str rh ++ ")")) ;;
  sleep log_interval.

(** [start_logging_sql(host, port, db, tb, log_interval)], cut after [n]
    rounds of its loop. *)
Definition start_logging_sql (host : string) (port : Z) (db tb : string)
    (log_interval : Q) (n : nat) : M unit :=
  creds <- gets SQL_CREDS_PATH ;;
  emit (SqlConnect host port db tb creds) ;;
  print "Logging to SQL database started!" ;;
  m <- gets mode ;;
  when (negb (m =? "periodic")) (set_mode "periodic" (Some 1%Q) "med" false) ;;
  first_init_read ;;
  while_true n (logging_sql_body tb log_interval).

End Logging.

(* ================================================================== *)
(** * Closed forms of the state after a frame

    The statements below name the state a method leaves behind.  The
    verdict of each checksum is a parameter here; the lemmas put
    [crc_eval] of the frame's bytes in its place. *)

Definition temperature_warning : string :=
  "WARNING: Checksum failed on temperature value reported by sensor!".
Definition humidity_warning : string :=
  "WARNING: Checksum failed on humidity value reported by sensor!".

(** The temperature half of [process_data]. *)
Definition temperature_stored (ok : bool) (s_t : Z) (s : State) : State :=
  if ok then upd_T_degC (raw_to_temp_c s_t) (upd_T_degF (raw_to_temp_f s_t) s)
  else upd_trace (trace s ++ [Print temperature_warning]) s.

(** The humidity half of [process_data]. *)
Definition humidity_stored (ok : bool) (s_rh : Z) (s : State) : State :=
  if ok then upd_RH (raw_to_rh s_rh) s
  else upd_trace (trace s ++ [Print humidity_warning]) s.

(** [(hi << 8) | lo]. *)
Definition word16 (hi lo : Z) : Z := Z.lor (Z.shiftl hi 8) lo.

(** What [fetch_data] sends and asks before the frame arrives. *)
Definition fetch_events (s : State) : list Event :=
  if mode s =? "single-shot" then [Sleep (5 # 100); BusRead (addr s) 0 6]
  else [Sleep (5 # 100); BusWrite (addr s) 0xE0 0x00; Sleep (1 # 10);
        BusRead (addr s) 0 6].

(** The state after [fetch_data] has taken one six-byte frame with the
    verdicts [tok] and [hok] off a bus that holds [rest] after it. *)
Definition fetched (tok hok : bool) (s_t s_rh : Z) (rest : list (list Z))
    (s : State) : State :=
  upd_RHready hok
    (upd_Tready tok
       (humidity_stored hok s_rh
          (temperature_stored tok s_t
             (upd_bus_in rest (upd_trace (trace s ++ fetch_events s) s))))).

(** The two modes the object can be in: [__init__] and [set_mode] assign
    nothing else to [self.mode]. *)
Definition mode_ok (s : State) : Prop :=
  mode s = "single-shot" \/ mode s = "periodic".

(** The temperature [get_sample] hands out, in the preferred unit. *)
Definition temperature_in (degf : bool) (s : State) : float :=
  if degf then T_degF s else T_degC s.

(** Both ready flags set. *)
Definition ready (s : State) : State := upd_RHready true (upd_Tready true s).

(** Both ready flags cleared. *)
Definition consumed (s : State) : State := upd_RHready false (upd_Tready false s).

(** The state after [get_status_byte] has taken one frame off a bus that
    holds [rest] after it. *)
Definition status_read (rest : list (list Z)) (s : State) : State :=
  upd_bus_in rest
    (upd_trace (trace s ++ [BusWrite (addr s) 0xF3 0x2D; Sleep (5 # 100);
                            BusRead (addr s) 0 3]) s).

(** One more line on the console. *)
Definition printed (msg : string) (s : State) : State :=
  upd_trace (trace s ++ [Print msg]) s.

(** An object put in periodic mode with a given accuracy and rate. *)
Definition periodic_config (acc : string) (r : Q) (s : State) : State :=
  upd_rate r (upd_accuracy acc (upd_mode "periodic" s)).

(** The periodic half of the command table: accuracy, rate, and the two
    command bytes of [PERIODIC_<rate>MPS_<accuracy>R]. *)
Definition periodic_commands : list (string * Q * Z * Z) :=
  let half := (1 # 2)%Q in
  [ ("high", half, 0x20, 0x32); ("med", half, 0x20, 0x24); ("low", half, 0x20, 0x2F);
    ("high", 1%Q, 0x21, 0x30); ("med", 1%Q, 0x21, 0x26); ("low", 1%Q, 0x21, 0x2D);
    ("high", 2%Q, 0x22, 0x36); ("med", 2%Q, 0x22, 0x20); ("low", 2%Q, 0x22, 0x2B);
    ("high", 4%Q, 0x23, 0x34); ("med", 4%Q, 0x23, 0x22); ("low", 4%Q, 0x23, 0x29);
    ("high", 10%Q, 0x27, 0x37); ("med", 10%Q, 0x27, 0x21); ("low", 10%Q, 0x27, 0x2A) ].

(** [init_read] has sent the two bytes [c0], [c1] and nothing else. *)
Definition sends (c0 c1 : Z) (s : State) : outcome unit * State :=
  (Returns tt, upd_trace (trace s ++ [BusWrite (addr s) c0 c1]) s).

(** The warning of [set_mode] about blocking in periodic mode. *)
Definition blocking_warning : string :=
  "WARNING: Blocking is not available for periodic sampling mode.".

(** How many block reads a trace holds. *)
Fixpoint bus_reads (tr : list Event) : nat :=
  match tr with
  | [] => O
  | BusRead _ _ _ :: rest => S (bus_reads rest)
  | _ :: rest => bus_reads rest
  end.


(* ================================================================== *)
(** * Relations between the state before and after a method *)

(** [m] never leaves the relation [R]: the state after running [m],
    returned or raised, is related to the state before. *)
Definition keeps (R : State -> State -> Prop) {A} (m : M A) : Prop :=
  forall s, R s (snd (m s)).

(** The two bytes of a bus write are a command of the class body. *)
Definition table_command (c v : Z) : Prop := In [c; v] (map snd class_attrs).

(** An event the protocol allows an object at address [a]: bus traffic
    goes to [a], and what is written is a command of the table. *)
Definition event_ok (a : Z) (e : Event) : Prop :=
  match e with
  | BusWrite a' c v => a' = a /\ table_command c v
  | BusRead a' _ _ => a' = a
  | _ => True
  end.

(** The trace has only grown, by events the protocol allows, and the
    address is what it was. *)
Definition on_protocol (s s' : State) : Prop :=
  addr s' = addr s
  /\ exists evs : list Event,
      trace s' = (trace s ++ evs)%list /\ Forall (event_ok (addr s)) evs.

(** The configuration and the class variables are what they were. *)
Definition same_config (s s' : State) : Prop :=
  addr s' = addr s /\ mode s' = mode s /\ rate s' = rate s
  /\ accuracy s' = accuracy s /\ blocking s' = blocking s
  /\ IDX s' = IDX s /\ LOGGING_PATH s' = LOGGING_PATH s
  /\ SQL_CREDS_PATH s' = SQL_CREDS_PATH s.

(** The attribute names of one [write_byte_data] call: twice the same
    name, or a first name the class does not define. *)
Definition names_ok (p : string * string) : Prop :=
  fst p = snd p \/ assoc (fst p) class_attrs = None.


(** The command the table holds for a periodic configuration. *)
Definition periodic_command (acc : string) (r : Q) : option (Z * Z) :=
  match find (fun '(a, q, _, _) => (a =? acc) && Qeq_bool r q) periodic_commands with
  | Some (_, _, c0, c1) => Some (c0, c1)
  | None => None
  end.

(** The command the class body holds for a single-shot configuration:
    [SINGLE_SHOT_CSON_<accuracy>R] with clock stretching (blocking),
    [SINGLE_SHOT_CSOFF_<accuracy>R] without. *)
Definition single_shot_command (acc : string) (blocking : bool) : option (Z * Z) :=
  if acc =? "high" then Some (if blocking then (0x24, 0x00) else (0x2C, 0x06))
  else if acc =? "med" then Some (if blocking then (0x24, 0x0B) else (0x2C, 0x0D))
  else if acc =? "low" then Some (if blocking then (0x24, 0x16) else (0x2C, 0x10))
  else None.


(** One byte through the CRC register of [crc_eval]: the eight shifts of
    [process_byte] at width 8, polynomial 0x31, and the mask. *)
Definition crc8_step (x : Z) : Z := Z.land (Crccheck.shift_loop 8 128 0x31 x) 255.

(** The byte step sends no other byte where it sends [x]. *)
Abbreviation step_injective :=
  (fun x : Z => all_from 256 0 (fun y => implb (crc8_step x =? crc8_step y)%Z (x =? y)%Z))
  (only parsing).

(* ================================================================== *)
(** * The export script ([sensor_data_export.py]) *)

Module SensorDataExport.

(** What [main] can raise. *)
Inductive PyError :=
| SystemExit                          (* [sys.exit()] *)
| IndexError                          (* a tuple index out of range *)
| AttributeError (name : string).     (* [None] has no [decode] *)

(** What [main] does to the outside, in the order it does it. *)
Inductive Event :=
| Print (msg : string)
| SqlConnect (host : string) (port : Z) (user passwd db : string)
| SqlQuery (query : string)
| FileOpen (path fmode : string)
| FileWrite (text : string)
| FileClose.

Inductive outcome (A : Type) :=
| Returns (a : A)
| Raises (e : PyError).
Arguments Returns {A} a.
Arguments Raises {A} e.

(** The state [main] threads is the trace of its events, oldest first. *)
Definition M (A : Type) : Type := list Event -> outcome A * list Event.

Definition ret {A} (a : A) : M A := fun t => (Returns a, t).
Definition raise {A} (e : PyError) : M A := fun t => (Raises e, t).
Definition bind {A B} (m : M A) (k : A -> M B) : M B :=
  fun t =>
    match m t with
    | (Returns a, t') => k a t'
    | (Raises e, t') => (Raises e, t')
    end.
Definition emit (e : Event) : M unit := fun t => (Returns tt, (t ++ [e])%list).

Declare Scope export_scope.
Delimit Scope export_scope with export.
Notation "x <- c1 ;; c2" := (bind c1 (fun x => c2))
  (at level 61, c1 at next level, right associativity) : export_scope.
Notation "c1 ;; c2" := (bind c1 (fun _ => c2))
  (at level 61, right associativity) : export_scope.
Local Open Scope export_scope.
Local Open Scope string_scope.

(** The module's globals. *)
Definition host : string := EmptyString.
Definition port : Z := 3306.
Definition dbase : string := EmptyString.
Definition user : string := EmptyString.
Definition passwd : string := EmptyString.

(** What [parser.parse_args()] hands back: [-f/--file] and [-t/--table]
    are [None] when not given, [--maxsamples] is an [int]. *)
Record Namespace := mkNamespace {
  file : option string;
  table : option string;
  maxsamples : Z;
}.

(** A row of the result: one cell per column, bytes, or [None] for a
    NULL.  The cells hold ASCII text, on which [decode('utf-8')] is the
    identity. *)
Definition Row : Type := list (option string).

(** [str(n)] for an [int]. *)
Definition str (n : Z) : string := NilZero.string_of_int (Z.to_int n).

(** [_tuple[i].decode('utf-8')]. *)
Definition decoded (_tuple : Row) (i : nat) : M string :=
  match nth_error _tuple i with
  | None => raise IndexError
  | Some None => raise (AttributeError "decode")
  | Some (Some b) => ret b
  end.

Definition write (text : string) : M unit := emit (FileWrite text).

(** The body of [for _tuple in data]. *)
Definition write_tuple (_tuple : Row) : M unit :=
  c0 <- decoded _tuple 0 ;;
  write c0 ;;
  write "," ;;
  c1 <- decoded _tuple 1 ;;
  write c1 ;;
  write "," ;;
  c2 <- decoded _tuple 2 ;;
  write c2 ;;
  write nl.

(** [for x in l: body(x)]. *)
Fixpoint for_each {A} (l : list A) (body : A -> M unit) : M unit :=
  match l with
  | [] => ret tt
  | x :: l' => body x ;; for_each l' body
  end.

(** [with open(path, mode) as file: body]: the file is closed on the way
    out, whether the body returns or raises. *)
Definition with_open (path fmode : string) (body : M unit) : M unit :=
  fun t =>
    match body (t ++ [FileOpen path fmode])%list with
    | (r, t') => (r, (t' ++ [FileClose])%list)
    end.

Section Main.

(** The database: the rows [res.fetch_row(maxrows=0)] returns for a
    query. *)
Variable fetch_row : string -> list Row.

(** [main(argv)].  [argv] is not used: [parse_args()] reads the command
    line itself. *)
Definition main (args : Namespace) : M unit :=
  let fpath := file args in
  let samples := maxsamples args in
  let table := table args in
  match fpath, table with
  | Some fpath, Some table =>
      emit (SqlConnect host 3306 user passwd dbase) ;;
      let query_str :=
        "SELECT * FROM " ++ table ++ " ORDER BY time DESC LIMIT " ++ str samples in
      emit (SqlQuery query_str) ;;
      let data := fetch_row query_str in
      with_open fpath "w" (for_each data write_tuple) ;;
      emit (Print "Data export complete!")
  | _, _ =>
      emit (Print "Must provide file path [-f] and data table [-t]") ;;
      raise SystemExit
  end.

End Main.

(** ** The export in closed form *)









End SensorDataExport.

(* ================================================================== *)
(** * Properties *)

Local Open Scope Z_scope.

(** ** Ranges, rounding, and the two exhaustive checks *)

Lemma all_from_spec (n : nat) :
  forall lo p, all_from n lo p = true ->
  forall z, lo <= z < lo + Z.of_nat n -> p z = true.
Proof.
  induction n as [|k IH]; intros lo p H z Hz.
  - simpl in Hz. lia.
  - cbn [all_from] in H. apply andb_prop in H. destruct H as [H0 Hk].
    destruct (Z.eq_dec z lo) as [->|Hne]; [exact H0|].
    apply (IH (lo + 1) p Hk). lia.
Qed.

Lemma div_eucl_pow2 (n k : Z) :
  0 <= k -> Z.div_eucl n (2 ^ k) = (Z.shiftr n k, Z.land n (Z.ones k)).
Proof.
  intros Hk.
  rewrite Z.shiftr_div_pow2, Z.land_ones by assumption.
  unfold Z.div, Z.modulo. now destruct (Z.div_eucl n (2 ^ k)).
Qed.

Lemma round_half_even_shift (n k : Z) :
  0 <= k -> round_half_even n (2 ^ k) = round_shift n k.
Proof.
  intros Hk. unfold round_half_even, round_shift.
  rewrite div_eucl_pow2 by assumption.
  rewrite Z.shiftl_1_l. reflexivity.
Qed.

Lemma py_round3_shift_eq (x : float) : py_round3 x = py_round3_shift x.
Proof.
  unfold py_round3, py_round3_shift.
  destruct (Prim2SF x) as [| | |s m e]; try reflexivity.
  destruct (0 <=? e) eqn:He; [reflexivity|].
  apply Z.leb_gt in He.
  rewrite round_half_even_shift by lia. reflexivity.
Qed.

Lemma conversions_agree_all : all_from (Z.to_nat 65536) 0 conversions_agree = true.
Proof. vm_compute. reflexivity. Qed.

Lemma crc_agrees_all :
  all_from 256 0 (fun b0 => all_from 256 0 (crc_agrees b0)) = true.
Proof. vm_compute. reflexivity. Qed.

(** ** The checksum *)

Lemma crc_package_is_crc8 (b0 b1 : Z) :
  0 <= b0 < 256 -> 0 <= b1 < 256 ->
  Crccheck.final
    (Crccheck.process (Crccheck.new 8 0x31 0xFF false false 0x00) [b0; b1])
  = crc8_spec [b0; b1].
Proof.
  intros H0 H1.
  pose proof (@all_from_spec 256 0 _ crc_agrees_all b0) as Hrow.
  cbv beta in Hrow.
  pose proof (@all_from_spec 256 0 _ (Hrow ltac:(lia)) b1) as Hcell.
  cbv beta in Hcell.
  apply Z.eqb_eq. apply Hcell. lia.
Qed.

(** C4.  On a 2-byte payload of bytes, [crc_eval] answers true exactly when
    the expected byte is the CRC-8 of the payload (polynomial 0x31, initial
    value 0xFF, nothing reflected, no output xor), the CRC being the
    remainder of the polynomial division; [crc_eval] is a function of its
    two arguments alone. *)
Theorem crc_eval_iff_crc8 (b0 b1 expected : Z) :
  0 <= b0 < 256 -> 0 <= b1 < 256 ->
  (crc_eval [b0; b1] expected = true <-> crc8_spec [b0; b1] = expected).
Proof.
  intros H0 H1. unfold crc_eval. cbv zeta.
  rewrite crc_package_is_crc8 by assumption.
  destruct (Z.eqb_spec (crc8_spec [b0; b1]) expected) as [E|E].
  - split; intros _; [exact E | exact eq_refl].
  - split; intro H; [discriminate H | exact (False_ind _ (E H))].
Qed.

(** The datasheet's example: the word 0xBEEF carries the checksum 0x92. *)
Lemma crc_eval_iff_crc8_witness :
  0 <= 0xBE < 256 /\ 0 <= 0xEF < 256 /\
  (crc_eval [0xBE; 0xEF] 0x92 = true <-> crc8_spec [0xBE; 0xEF] = 0x92).
Proof.
  split; [lia|]. split; [lia|].
  apply (crc_eval_iff_crc8 0xBE 0xEF 0x92); lia.
Defined.

(** ** The conversions *)

Lemma conversions_agree_at (code : Z) :
  0 <= code <= 65535 -> conversions_agree code = true.
Proof.
  intros H.
  apply (@all_from_spec (Z.to_nat 65536) 0 _ conversions_agree_all code).
  rewrite Z2Nat.id; lia.
Qed.

(** C5.  For every 16-bit raw code the three conversions of [process_data]
    give -45 + 175*code/65535, -49 + 315*code/65535 and 100*code/65535
    rounded to three decimals (as doubles); code 0 gives -45.0, -49.0 and
    0.0, code 65535 gives 130.0, 266.0 and 100.0. *)
Theorem conversions_round_to_3_decimals (code : Z) :
  0 <= code <= 65535 ->
  raw_to_temp_c code = spec_temp_c code
  /\ raw_to_temp_f code = spec_temp_f code
  /\ raw_to_rh code = spec_rh code
  /\ raw_to_temp_c 0 = (-45)%float /\ raw_to_temp_f 0 = (-49)%float
  /\ raw_to_rh 0 = 0%float
  /\ raw_to_temp_c 65535 = 130%float /\ raw_to_temp_f 65535 = 266%float
  /\ raw_to_rh 65535 = 100%float.
Proof.
  intros H.
  pose proof (conversions_agree_at code H) as A.
  cbv beta in A.
  apply andb_prop in A. destruct A as [A Hrh].
  apply andb_prop in A. destruct A as [Hc Hf].
  apply FloatAxioms.Leibniz.eqb_spec in Hc, Hf, Hrh.
  unfold raw_to_temp_c, raw_to_temp_f, raw_to_rh.
  rewrite !py_round3_shift_eq.
  split; [exact Hc|]. split; [exact Hf|]. split; [exact Hrh|].
  repeat split; vm_compute; reflexivity.
Qed.

Lemma conversions_round_to_3_decimals_witness :
  0 <= 12345 <= 65535 /\
  raw_to_temp_c 12345 = spec_temp_c 12345
  /\ raw_to_temp_f 12345 = spec_temp_f 12345
  /\ raw_to_rh 12345 = spec_rh 12345
  /\ raw_to_temp_c 0 = (-45)%float /\ raw_to_temp_f 0 = (-49)%float
  /\ raw_to_rh 0 = 0%float
  /\ raw_to_temp_c 65535 = 130%float /\ raw_to_temp_f 65535 = 266%float
  /\ raw_to_rh 65535 = 100%float.
Proof.
  split; [lia|]. apply (conversions_round_to_3_decimals 12345). lia.
Defined.

(** ** Frames *)

Arguments crc_eval : simpl never.
Arguments raw_to_temp_c : simpl never.
Arguments raw_to_temp_f : simpl never.
Arguments raw_to_rh : simpl never.

Local Open Scope string_scope.

Lemma process_data_frame (d0 d1 d2 d3 d4 d5 : Z) (s : State) :
  process_data [d0; d1; d2; d3; d4; d5] s =
  (Returns [crc_eval [d0; d1] d2; crc_eval [d3; d4] d5],
   humidity_stored (crc_eval [d3; d4] d5) (word16 d3 d4)
     (temperature_stored (crc_eval [d0; d1] d2) (word16 d0 d1) s)).
Proof.
  unfold process_data, bind, item. cbn [nth_error ret].
  destruct (crc_eval [d0; d1] d2); destruct (crc_eval [d3; d4] d5);
    reflexivity.
Qed.

Lemma fetch_data_frame (d0 d1 d2 d3 d4 d5 : Z) (rest : list (list Z)) (s : State) :
  mode_ok s ->
  bus_in s = [d0; d1; d2; d3; d4; d5] :: rest ->
  fetch_data s =
  (Returns tt,
   fetched (crc_eval [d0; d1] d2) (crc_eval [d3; d4] d5)
     (word16 d0 d1) (word16 d3 d4) rest s).
Proof.
  intros Hmode Hbus.
  unfold fetch_data, fetched, fetch_events, bind, sleep, send_command,
    read_i2c_block_data, write_byte_data, emit, modify, gets, class_attr, item.
  change (Z.to_nat 6) with 6%nat.
  cbn -[process_data String.eqb].
  destruct Hmode as [Hm|Hm]; rewrite Hm; cbn -[process_data];
    rewrite Hbus; cbn -[process_data];
    rewrite process_data_frame; cbn -[temperature_stored humidity_stored];
    rewrite <- !app_assoc; reflexivity.
Qed.

Lemma bus_reads_app (a b : list Event) :
  bus_reads (a ++ b) = (bus_reads a + bus_reads b)%nat.
Proof.
  induction a as [|e a IH]; [reflexivity|].
  destruct e; cbn [app bus_reads]; rewrite IH; reflexivity.
Qed.

(** What [fetched] leaves in each field. *)
Lemma fetched_flags tok hok st sr rest s :
  Tready (fetched tok hok st sr rest s) = tok
  /\ RHready (fetched tok hok st sr rest s) = hok.
Proof. destruct tok, hok; split; reflexivity. Qed.

Lemma fetched_values tok hok st sr rest s :
  T_degC (fetched tok hok st sr rest s) = (if tok then raw_to_temp_c st else T_degC s)
  /\ T_degF (fetched tok hok st sr rest s) = (if tok then raw_to_temp_f st else T_degF s)
  /\ RH (fetched tok hok st sr rest s) = (if hok then raw_to_rh sr else RH s).
Proof. destruct tok, hok; repeat split; reflexivity. Qed.

Lemma fetched_world tok hok st sr rest s :
  bus_in (fetched tok hok st sr rest s) = rest
  /\ mode (fetched tok hok st sr rest s) = mode s
  /\ bus_reads (trace (fetched tok hok st sr rest s)) = S (bus_reads (trace s)).
Proof.
  split; [destruct tok, hok; reflexivity|].
  split; [destruct tok, hok; reflexivity|].
  unfold fetched, fetch_events.
  destruct (mode s =? "single-shot"); destruct tok, hok;
    cbn [trace upd_trace upd_bus_in upd_Tready upd_RHready temperature_stored
         humidity_stored upd_T_degC upd_T_degF upd_RH];
    rewrite ?bus_reads_app; cbn [bus_reads]; lia.
Qed.

(** C3.  A six-byte frame is taken by [fetch_data] channel by channel: each
    ready flag is the verdict of its own checksum, and each value is the
    new conversion when its checksum holds and the prior value when it
    fails.  In particular, when the temperature checksum fails and the
    humidity checksum holds, [RH] is the converted new humidity with its
    flag set, [T_degC] and [T_degF] are what they were, and the
    temperature flag is false. *)
Theorem fetch_data_channels_independent
    (t0 t1 tc h0 h1 hc : Z) (rest : list (list Z)) (s : State) :
  mode_ok s ->
  bus_in s = [t0; t1; tc; h0; h1; hc] :: rest ->
  exists s',
    fetch_data s = (Returns tt, s')
    /\ Tready s' = crc_eval [t0; t1] tc
    /\ RHready s' = crc_eval [h0; h1] hc
    /\ T_degC s' = (if crc_eval [t0; t1] tc then raw_to_temp_c (word16 t0 t1) else T_degC s)
    /\ T_degF s' = (if crc_eval [t0; t1] tc then raw_to_temp_f (word16 t0 t1) else T_degF s)
    /\ RH s' = (if crc_eval [h0; h1] hc then raw_to_rh (word16 h0 h1) else RH s)
    /\ (crc_eval [t0; t1] tc = false -> crc_eval [h0; h1] hc = true ->
        RH s' = raw_to_rh (word16 h0 h1) /\ RHready s' = true
        /\ T_degC s' = T_degC s /\ T_degF s' = T_degF s /\ Tready s' = false).
Proof.
  intros Hmode Hbus.
  eexists. split; [apply (fetch_data_frame _ _ _ _ _ _ rest s Hmode Hbus)|].
  generalize (crc_eval [t0; t1] tc) (crc_eval [h0; h1] hc). intros tok hok.
  destruct (fetched_flags tok hok (word16 t0 t1) (word16 h0 h1) rest s) as [Ft Fh].
  destruct (fetched_values tok hok (word16 t0 t1) (word16 h0 h1) rest s)
    as (Vc & Vf & Vh).
  rewrite Ft, Fh, Vc, Vf, Vh.
  repeat (split; [reflexivity|]).
  intros -> ->. repeat split; reflexivity.
Qed.

(** A frame whose temperature word 0xBEEF carries a wrong checksum and
    whose humidity word 0xBEEF carries the right one, on a fresh object. *)
Lemma fetch_data_channels_independent_witness :
  let s := upd_T_degC 21.5%float (init 0x44 "" "" [[0xBE; 0xEF; 0x00; 0xBE; 0xEF; 0x92]]) in
  mode_ok s
  /\ bus_in s = [0xBE; 0xEF; 0x00; 0xBE; 0xEF; 0x92] :: []
  /\ crc_eval [0xBE; 0xEF] 0x00 = false
  /\ crc_eval [0xBE; 0xEF] 0x92 = true
  /\ exists s',
       fetch_data s = (Returns tt, s')
       /\ RH s' = raw_to_rh 0xBEEF /\ RHready s' = true
       /\ T_degC s' = 21.5%float /\ T_degF s' = 0%float /\ Tready s' = false.
Proof.
  intro s.
  assert (Hm : mode_ok s) by (left; reflexivity).
  assert (Hb : bus_in s = [0xBE; 0xEF; 0x00; 0xBE; 0xEF; 0x92] :: []) by reflexivity.
  assert (Ht : crc_eval [0xBE; 0xEF] 0x00 = false) by (vm_compute; reflexivity).
  assert (Hh : crc_eval [0xBE; 0xEF] 0x92 = true) by (vm_compute; reflexivity).
  repeat (split; [assumption|]).
  destruct (fetch_data_channels_independent _ _ _ _ _ _ _ s Hm Hb)
    as (s' & Hf & _ & _ & _ & _ & _ & Hcase).
  exists s'. split; [exact Hf|]. exact (Hcase Ht Hh).
Defined.

(** ** Sampling *)

Lemma take_sample_returns (degf : bool) (s : State) :
  take_sample degf s = (Returns [Some (temperature_in degf s); Some (RH s)], consumed s).
Proof. destruct degf; reflexivity. Qed.

Lemma get_sample_ready (degf : bool) (s : State) :
  Tready s && RHready s = true ->
  get_sample degf s =
  (Returns [Some (temperature_in degf s); Some (RH s)], consumed s).
Proof.
  intros Hr. unfold get_sample, bind, gets. rewrite Hr.
  apply take_sample_returns.
Qed.

Lemma get_sample_not_ready (degf : bool) (s : State) :
  Tready s && RHready s = false ->
  get_sample degf s =
  match fetch_data s with
  | (Returns _, s1) =>
      if Tready s1 && RHready s1
      then (Returns [Some (temperature_in degf s1); Some (RH s1)], consumed s1)
      else (Returns [None; None], s1)
  | (Raises e, s1) => (Raises e, s1)
  end.
Proof.
  intros Hr. unfold get_sample, bind, gets. rewrite Hr.
  destruct (fetch_data s) as [[[]|e] s1]; [|reflexivity].
  destruct (Tready s1 && RHready s1); [apply take_sample_returns|reflexivity].
Qed.

(** C6.  [get_sample] retries once and no more.  With both flags set it
    clears them and returns the stored temperature (in the preferred unit)
    and humidity, leaving bus and trace alone.  Otherwise (the object in
    one of its two modes, a six-byte frame on the bus) it returns after
    exactly one fetch, which takes exactly one frame: the values of that
    fetch with both flags cleared when the fetch set both flags, and
    [[None, None]] in the state the fetch left otherwise. *)
Theorem get_sample_single_retry (degf : bool) (s : State) :
  (Tready s = true -> RHready s = true ->
   get_sample degf s =
     (Returns [Some (temperature_in degf s); Some (RH s)], consumed s)
   /\ Tready (consumed s) = false /\ RHready (consumed s) = false
   /\ trace (consumed s) = trace s /\ bus_in (consumed s) = bus_in s)
  /\
  (Tready s && RHready s = false ->
   forall d0 d1 d2 d3 d4 d5 rest,
   mode_ok s ->
   bus_in s = [d0; d1; d2; d3; d4; d5] :: rest ->
   exists s1 r s',
     fetch_data s = (Returns tt, s1)
     /\ get_sample degf s = (Returns r, s')
     /\ bus_reads (trace s') = S (bus_reads (trace s))
     /\ bus_in s' = rest
     /\ (Tready s1 && RHready s1 = true ->
         r = [Some (temperature_in degf s1); Some (RH s1)] /\ s' = consumed s1)
     /\ (Tready s1 && RHready s1 = false -> r = [None; None] /\ s' = s1)).
Proof.
  split.
  - intros Ht Hh. split.
    + apply get_sample_ready. rewrite Ht, Hh. reflexivity.
    + repeat split; reflexivity.
  - intros Hr d0 d1 d2 d3 d4 d5 rest Hmode Hbus.
    pose proof (fetch_data_frame d0 d1 d2 d3 d4 d5 rest s Hmode Hbus) as Hf.
    rewrite (get_sample_not_ready degf s Hr), Hf.
    generalize (crc_eval [d0; d1] d2) (crc_eval [d3; d4] d5). intros tok hok.
    destruct (fetched_flags tok hok (word16 d0 d1) (word16 d3 d4) rest s) as [Ft Fh].
    destruct (fetched_world tok hok (word16 d0 d1) (word16 d3 d4) rest s)
      as (Wb & _ & Wr).
    exists (fetched tok hok (word16 d0 d1) (word16 d3 d4) rest s).
    rewrite Ft, Fh.
    destruct (tok && hok) eqn:Hboth.
    + do 2 eexists. split; [reflexivity|]. split; [reflexivity|].
      split; [exact Wr|]. split; [exact Wb|].
      split; [intros _; split; reflexivity | intros H; discriminate H].
    + do 2 eexists. split; [reflexivity|]. split; [reflexivity|].
      split; [exact Wr|]. split; [exact Wb|].
      split; [intros H; discriminate H | intros _; split; reflexivity].
Qed.

(** A fresh object in single-shot mode: the first call fetches the one
    frame on the bus; the frame holds, so the call returns its values. *)
Lemma get_sample_single_retry_witness :
  let s := init 0x44 "" "" [[0xBE; 0xEF; 0x92; 0xBE; 0xEF; 0x92]] in
  Tready s && RHready s = false
  /\ mode_ok s
  /\ bus_in s = [0xBE; 0xEF; 0x92; 0xBE; 0xEF; 0x92] :: []
  /\ exists s1 r s',
     fetch_data s = (Returns tt, s1)
     /\ get_sample true s = (Returns r, s')
     /\ bus_reads (trace s') = S (bus_reads (trace s))
     /\ bus_in s' = []
     /\ (Tready s1 && RHready s1 = true ->
         r = [Some (temperature_in true s1); Some (RH s1)] /\ s' = consumed s1)
     /\ (Tready s1 && RHready s1 = false -> r = [None; None] /\ s' = s1).
Proof.
  intro s.
  assert (Hr : Tready s && RHready s = false) by reflexivity.
  assert (Hm : mode_ok s) by (left; reflexivity).
  assert (Hb : bus_in s = [0xBE; 0xEF; 0x92; 0xBE; 0xEF; 0x92] :: []) by reflexivity.
  repeat (split; [assumption|]).
  exact (proj2 (get_sample_single_retry true s) Hr _ _ _ _ _ _ _ Hm Hb).
Defined.

Lemma get_sample_shape (degf : bool) (s : State) r s' :
  get_sample degf s = (Returns r, s') ->
  (exists t h, r = [Some t; Some h]) \/ r = [None; None].
Proof.
  destruct (Tready s && RHready s) eqn:Hr.
  - rewrite (get_sample_ready degf s Hr). intros [= <- _]. left. eauto.
  - rewrite (get_sample_not_ready degf s Hr).
    destruct (fetch_data s) as [[[]|e] s1]; [|intros [=]].
    destruct (Tready s1 && RHready s1); intros [= <- _]; [left; eauto|right; reflexivity].
Qed.

Lemma fetched_consumed tok hok st sr rest s :
  fetched tok hok st sr rest (consumed s) = fetched tok hok st sr rest s.
Proof. destruct tok, hok; reflexivity. Qed.

(** A call that finds the flags not both set gives the same outcome and
    leaves the same state whether or not a flag was set on entry: its
    fetch assigns both flags anew. *)
Lemma get_sample_ignores_flags (degf : bool) (s : State) d0 d1 d2 d3 d4 d5 rest :
  Tready s && RHready s = false ->
  mode_ok s ->
  bus_in s = [d0; d1; d2; d3; d4; d5] :: rest ->
  get_sample degf s = get_sample degf (consumed s).
Proof.
  intros Hr Hmode Hbus.
  rewrite (get_sample_not_ready degf s Hr).
  rewrite (get_sample_not_ready degf (consumed s) eq_refl).
  rewrite (fetch_data_frame d0 d1 d2 d3 d4 d5 rest s Hmode Hbus).
  rewrite (fetch_data_frame d0 d1 d2 d3 d4 d5 rest (consumed s) Hmode Hbus).
  rewrite fetched_consumed. reflexivity.
Qed.

(** C10 (as amended).  Whenever [get_sample] returns, it returns two values
    or two [None]s, never one of each.  When it returns [[None, None]]
    (flags not both set on entry, the object in one of its two modes, a
    six-byte frame on the bus), the ready flags are left as the retry fetch
    set them, each the verdict of its channel's checksum, so a single set
    flag is not consumed.  The flag left set is not paired later: the next
    call's fetch assigns both flags anew, and that call does exactly what
    it would do had both flags been cleared. *)
Theorem get_sample_both_or_neither (degf : bool) (s : State) :
  (forall r s', get_sample degf s = (Returns r, s') ->
     (exists t h, r = [Some t; Some h]) \/ r = [None; None])
  /\
  (Tready s && RHready s = false ->
   forall d0 d1 d2 d3 d4 d5 rest,
   mode_ok s ->
   bus_in s = [d0; d1; d2; d3; d4; d5] :: rest ->
   exists r s',
     get_sample degf s = (Returns r, s')
     /\ (r = [None; None] ->
         Tready s' = crc_eval [d0; d1] d2 /\ RHready s' = crc_eval [d3; d4] d5
         /\ forall degf' e0 e1 e2 e3 e4 e5 rest',
              rest = [e0; e1; e2; e3; e4; e5] :: rest' ->
              get_sample degf' s' = get_sample degf' (consumed s'))).
Proof.
  split; [intros r s'; apply get_sample_shape|].
  intros Hr d0 d1 d2 d3 d4 d5 rest Hmode Hbus.
  rewrite (get_sample_not_ready degf s Hr).
  rewrite (fetch_data_frame d0 d1 d2 d3 d4 d5 rest s Hmode Hbus).
  generalize (crc_eval [d0; d1] d2) (crc_eval [d3; d4] d5). intros tok hok.
  destruct (fetched_flags tok hok (word16 d0 d1) (word16 d3 d4) rest s) as [Ft Fh].
  destruct (fetched_world tok hok (word16 d0 d1) (word16 d3 d4) rest s)
    as (Wb & Wm & _).
  rewrite Ft, Fh.
  destruct (tok && hok) eqn:Hboth.
  - do 2 eexists. split; [reflexivity|]. intros [=].
  - do 2 eexists. split; [reflexivity|]. intros _.
    split; [exact Ft|]. split; [exact Fh|].
    intros degf' e0 e1 e2 e3 e4 e5 rest' ->.
    apply (get_sample_ignores_flags degf' _ e0 e1 e2 e3 e4 e5 rest').
    + rewrite Ft, Fh. exact Hboth.
    + unfold mode_ok. rewrite Wm. exact Hmode.
    + exact Wb.
Qed.

(** Two frames on the bus of a fresh object: temperature good and humidity
    bad, then temperature bad and humidity good. *)
Lemma get_sample_both_or_neither_witness :
  let s := init 0x44 "" "" [[0xBE; 0xEF; 0x92; 0xBE; 0xEF; 0x00];
                            [0xBE; 0xEF; 0x00; 0xBE; 0xEF; 0x92]] in
  Tready s && RHready s = false
  /\ mode_ok s
  /\ bus_in s = [0xBE; 0xEF; 0x92; 0xBE; 0xEF; 0x00]
                :: [[0xBE; 0xEF; 0x00; 0xBE; 0xEF; 0x92]]
  /\ exists r s',
     get_sample true s = (Returns r, s')
     /\ (r = [None; None] ->
         Tready s' = crc_eval [0xBE; 0xEF] 0x92 /\ RHready s' = crc_eval [0xBE; 0xEF] 0x00
         /\ forall degf' e0 e1 e2 e3 e4 e5 rest',
              [[0xBE; 0xEF; 0x00; 0xBE; 0xEF; 0x92]] = [e0; e1; e2; e3; e4; e5] :: rest' ->
              get_sample degf' s' = get_sample degf' (consumed s')).
Proof.
  intro s.
  assert (Hr : Tready s && RHready s = false) by reflexivity.
  assert (Hm : mode_ok s) by (left; reflexivity).
  assert (Hb : bus_in s = [0xBE; 0xEF; 0x92; 0xBE; 0xEF; 0x00]
                          :: [[0xBE; 0xEF; 0x00; 0xBE; 0xEF; 0x92]]) by reflexivity.
  repeat (split; [assumption|]).
  exact (proj2 (get_sample_both_or_neither true s) Hr _ _ _ _ _ _ _ Hm Hb).
Defined.

(** C10, the claim as stated, fails on the same two frames.  The first
    call returns [[None, None]] and leaves the temperature flag set.  On
    the second call the humidity channel of the new frame holds, yet the
    call returns [[None, None]] again: the flag that was left set has been
    overwritten by the second fetch and has paired with nothing. *)
Lemma stale_flag_never_pairs :
  let s0 := init 0x44 "" "" [[0xBE; 0xEF; 0x92; 0xBE; 0xEF; 0x00];
                             [0xBE; 0xEF; 0x00; 0xBE; 0xEF; 0x92]] in
  let s1 := snd (get_sample true s0) in
  let s2 := snd (get_sample true s1) in
  fst (get_sample true s0) = Returns [None; None]
  /\ Tready s1 = true /\ RHready s1 = false
  /\ fst (get_sample true s1) = Returns [None; None]
  /\ Tready s2 = false /\ RHready s2 = true.
Proof. vm_compute. repeat split; reflexivity. Qed.

(** ** The status register *)

Lemma get_status_byte_frame (d0 d1 d2 : Z) (rest : list (list Z)) (s : State) :
  bus_in s = [d0; d1; d2] :: rest ->
  get_status_byte s =
  (Returns (if crc_eval [d0; d1] d2 then word16 d0 d1 else 0xFFFF),
   status_read rest s).
Proof.
  intros Hbus.
  unfold get_status_byte, status_read, bind, sleep, send_command,
    read_i2c_block_data, write_byte_data, emit, modify, gets, class_attr, item.
  change (Z.to_nat 3) with 3%nat.
  cbn. rewrite Hbus. cbn.
  destruct (crc_eval [d0; d1] d2); rewrite <- !app_assoc; reflexivity.
Qed.

(** Each of the four queries, on a status byte equal to the sentinel. *)
Lemma alert_status_sentinel (s s1 : State) :
  get_status_byte s = (Returns 0xFFFF, s1) ->
  alert_status s = (Returns false, printed checksum_failed_msg s1).
Proof. intros H. unfold alert_status, bind. rewrite H. reflexivity. Qed.

Lemma command_status_sentinel (s s1 : State) :
  get_status_byte s = (Returns 0xFFFF, s1) ->
  command_status s = (Returns false, printed checksum_failed_msg s1).
Proof. intros H. unfold command_status, bind. rewrite H. reflexivity. Qed.

Lemma chksum_status_sentinel (s s1 : State) :
  get_status_byte s = (Returns 0xFFFF, s1) ->
  chksum_status s = (Returns false, printed checksum_failed_msg s1).
Proof. intros H. unfold chksum_status, bind. rewrite H. reflexivity. Qed.

Lemma get_heater_status_sentinel (s s1 : State) :
  get_status_byte s = (Returns 0xFFFF, s1) ->
  get_heater_status s = (Returns false, printed checksum_failed_msg s1).
Proof. intros H. unfold get_heater_status, bind. rewrite H. reflexivity. Qed.

(** C8 (as amended).  With a three-byte status frame on the bus,
    [get_status_byte] returns the decoded 16-bit value when the frame's
    checksum holds and the sentinel 0xFFFF when it fails (so the sentinel
    comes back when the checksum fails or the decoded value is itself
    0xFFFF).  Whenever the status byte is the sentinel, each of
    [alert_status], [command_status], [chksum_status] and
    [get_heater_status] returns false after printing the warning; none
    raises. *)
Theorem get_status_byte_sentinel (d0 d1 d2 : Z) (rest : list (list Z)) (s : State) :
  bus_in s = [d0; d1; d2] :: rest ->
  exists status s1,
    get_status_byte s = (Returns status, s1)
    /\ (crc_eval [d0; d1] d2 = true -> status = word16 d0 d1)
    /\ (crc_eval [d0; d1] d2 = false -> status = 0xFFFF)
    /\ (status = 0xFFFF <-> crc_eval [d0; d1] d2 = false \/ word16 d0 d1 = 0xFFFF)
    /\ (status = 0xFFFF ->
        alert_status s = (Returns false, printed checksum_failed_msg s1)
        /\ command_status s = (Returns false, printed checksum_failed_msg s1)
        /\ chksum_status s = (Returns false, printed checksum_failed_msg s1)
        /\ get_heater_status s = (Returns false, printed checksum_failed_msg s1)).
Proof.
  intros Hbus.
  pose proof (get_status_byte_frame d0 d1 d2 rest s Hbus) as Hst.
  revert Hst. generalize (crc_eval [d0; d1] d2). intros ok Hst.
  do 2 eexists. split; [exact Hst|].
  split; [intros ->; reflexivity|].
  split; [intros ->; reflexivity|].
  split.
  - destruct ok.
    + split; [intros H; right; exact H | intros [H|H]; [discriminate H | exact H]].
    + split; [intros _; left; reflexivity | intros _; reflexivity].
  - intros Hs. rewrite Hs in Hst.
    split; [exact (alert_status_sentinel _ _ Hst)|].
    split; [exact (command_status_sentinel _ _ Hst)|].
    split; [exact (chksum_status_sentinel _ _ Hst)|].
    exact (get_heater_status_sentinel _ _ Hst).
Qed.

(** A status frame whose checksum byte is wrong, on a fresh object. *)
Lemma get_status_byte_sentinel_witness :
  let s := init 0x44 "" "" [[0x80; 0x00; 0x00]] in
  bus_in s = [0x80; 0x00; 0x00] :: []
  /\ exists status s1,
    get_status_byte s = (Returns status, s1)
    /\ (crc_eval [0x80; 0x00] 0x00 = true -> status = word16 0x80 0x00)
    /\ (crc_eval [0x80; 0x00] 0x00 = false -> status = 0xFFFF)
    /\ (status = 0xFFFF <-> crc_eval [0x80; 0x00] 0x00 = false \/ word16 0x80 0x00 = 0xFFFF)
    /\ (status = 0xFFFF ->
        alert_status s = (Returns false, printed checksum_failed_msg s1)
        /\ command_status s = (Returns false, printed checksum_failed_msg s1)
        /\ chksum_status s = (Returns false, printed checksum_failed_msg s1)
        /\ get_heater_status s = (Returns false, printed checksum_failed_msg s1)).
Proof.
  intro s. split; [reflexivity|].
  apply (get_status_byte_sentinel 0x80 0x00 0x00 [] s). reflexivity.
Defined.

(** C8, the claim as stated, fails on the frame FF FF AC: its checksum
    holds, and the status byte is the sentinel all the same; the alert
    query then warns of a failed checksum and answers false, although bit
    15 of the status is set. *)
Lemma sentinel_without_checksum_failure :
  let s := init 0x44 "" "" [[0xFF; 0xFF; 0xAC]] in
  crc_eval [0xFF; 0xFF] 0xAC = true
  /\ fst (get_status_byte s) = Returns 0xFFFF
  /\ fst (alert_status s) = Returns false.
Proof. vm_compute. repeat split; reflexivity. Qed.

(** ** Starting a periodic acquisition *)

(** The fourteen other periodic configurations: [init_read] writes the
    two bytes of the command table and returns. *)
Lemma init_read_periodic_others (s : State) :
  Forall (fun '(acc, r, c0, c1) =>
            init_read (periodic_config acc r s) = sends c0 c1 (periodic_config acc r s))
         (tl periodic_commands).
Proof. repeat constructor. Qed.

(** C1 (the code departs from it).  In periodic mode with accuracy
    "high" and rate 0.5, [init_read] raises [AttributeError] on the
    misspelt class attribute [PERIODIC_05_MPS_HIGHR] before anything is
    written to the bus: the state, trace included, is unchanged. *)
Theorem init_read_periodic_high_05_raises (s : State) :
  init_read (periodic_config "high" (1 # 2) s)
  = (Raises (AttributeError "PERIODIC_05_MPS_HIGHR"), periodic_config "high" (1 # 2) s).
Proof. reflexivity. Qed.

(** ** Alerts *)

Lemma masked_bit_shifted_out (x k n : Z) :
  0 <= k < n -> Z.shiftr (Z.land x (2 ^ k)) n = 0.
Proof.
  intros Hk. apply Z.bits_inj'. intros i Hi.
  rewrite Z.shiftr_spec, Z.land_spec, Z.bits_0 by assumption.
  rewrite Z.pow2_bits_eqb by lia.
  replace (k =? i + n)%Z with false by (symmetry; apply Z.eqb_neq; lia).
  apply andb_false_r.
Qed.

(** The three tests of [get_alert] mask bits 9, 10 and 3 and then shift by
    10, 11 and 4: each result is 0 whatever the status. *)
Lemma alert_masks_miss (x : Z) :
  Z.shiftr (Z.land x 0x200) 10 = 0
  /\ Z.shiftr (Z.land x 0x400) 11 = 0
  /\ Z.shiftr (Z.land x 0x08) 4 = 0.
Proof.
  split; [exact (masked_bit_shifted_out x 9 10 ltac:(lia))|].
  split; [exact (masked_bit_shifted_out x 10 11 ltac:(lia))|].
  exact (masked_bit_shifted_out x 3 4 ltac:(lia)).
Qed.

(** Whatever three-byte status frame arrives, [get_alert] reports no alert. *)
Lemma get_alert_never_reports (d0 d1 d2 : Z) (rest : list (list Z)) (s : State) :
  bus_in s = [d0; d1; d2] :: rest ->
  exists s', get_alert s = (Returns ["null"; "null"; "null"], s').
Proof.
  intros Hbus. unfold get_alert, bind.
  rewrite (get_status_byte_frame d0 d1 d2 rest s Hbus).
  generalize (if crc_eval [d0; d1] d2 then word16 d0 d1 else 65535). intros st.
  destruct (alert_masks_miss st) as (A & B & C).
  destruct (negb (st =? 65535)%Z).
  - rewrite A, B, C. eexists. reflexivity.
  - eexists. reflexivity.
Qed.

(** C2 (the code departs from it).  The status 0x0C10 has bit 10
    (temperature tracking alert), bit 11 (humidity tracking alert) and
    bit 4 (reset detected) set and arrives with a valid checksum;
    [get_alert] reports none of the three.  It does issue ClearStatus. *)
Theorem get_alert_misses_set_bits :
  let s := init 0x44 "" "" [[0x0C; 0x10; 0x76]] in
  crc_eval [0x0C; 0x10] 0x76 = true
  /\ fst (get_status_byte s) = Returns 0x0C10
  /\ Z.testbit 0x0C10 10 = true /\ Z.testbit 0x0C10 11 = true
  /\ Z.testbit 0x0C10 4 = true
  /\ fst (get_alert s) = Returns ["null"; "null"; "null"]
  /\ In (BusWrite 0x44 0x30 0x41) (trace (snd (get_alert s))).
Proof.
  vm_compute. repeat split; try reflexivity.
  right. right. right. left. reflexivity.
Qed.

(** ** Configuration *)

(** [set_mode] with mode "periodic": the blocking field is cleared, with
    the warning, only when the argument is true; otherwise it is left as
    it was. *)
Lemma set_mode_periodic_blocking (r : option Q) (acc : string) (b : bool) (s : State) :
  fst (set_mode "periodic" r acc b s) = Returns tt
  /\ blocking (snd (set_mode "periodic" r acc b s)) = (if b then false else blocking s)
  /\ (b = true -> In (Print blocking_warning) (trace (snd (set_mode "periodic" r acc b s)))).
Proof.
  unfold set_mode, bind, when, print, emit, modify.
  cbn -[valid_rate valid_accuracy].
  destruct r as [r|]; [destruct (valid_rate r)|];
    destruct (valid_accuracy acc); destruct b; cbn;
    (split; [reflexivity|]); (split; [reflexivity|]);
    intros H; try discriminate H;
    apply in_or_app; right; left; reflexivity.
Qed.

(** C7 (the code departs from it).  A fresh object has [blocking] set;
    [set_mode("periodic", rate=1, acc="med")], the call the logging
    methods make, succeeds and leaves [blocking] set. *)
Theorem set_mode_periodic_keeps_blocking :
  let s := init 0x44 "" "" [] in
  blocking s = true
  /\ fst (set_mode "periodic" (Some 1%Q) "med" false s) = Returns tt
  /\ mode (snd (set_mode "periodic" (Some 1%Q) "med" false s)) = "periodic"
  /\ blocking (snd (set_mode "periodic" (Some 1%Q) "med" false s)) = true.
Proof. vm_compute. repeat split; reflexivity. Qed.

(** ** The logging loops *)

Section LoggingRounds.

Variable strftime_now : nat -> string.
Variable str_float : float -> string.

(** One round of the SQL loop on a ready object: the sample is taken, the
    line is written, the row is inserted, and the loop sleeps for the
    logging interval. *)
Lemma logging_sql_body_round (tb : string) (log_interval : Q) (s : State) :
  logging_sql_body strftime_now str_float tb log_interval (ready s)
  = (Returns tt,
     upd_trace
       (trace s ++
        [FileWrite (LOGGING_PATH s) "w" (log_line strftime_now str_float s);
         SqlQuery ("INSERT INTO " ++ tb ++ " (time, temp, rh) VALUES (" ++ "'"
                   ++ strftime_now (clock_reads s) ++ "'" ++ ","
                   ++ str_float (T_degF s) ++ "," ++ str_float (RH s) ++ ")");
         Sleep log_interval])
       (upd_clock_reads (S (clock_reads s)) (consumed s))).
Proof.
  unfold logging_sql_body, bind, get_sample, take_sample, gets, modify, item,
    now, sleep, emit, modify, py_str, ready, log_line, consumed.
  cbn -[String.append]. rewrite <- !app_assoc. reflexivity.
Qed.

(** C9 (the code departs from it).  One round of the file loop on a ready
    object takes the sample, reads the clock and appends the line
    [timestamp,temperature,humidity] to the file, and that is all: the
    round ends without a sleep, and the next round starts at once.  (The
    method has no logging interval to sleep for.) *)
Theorem logging_file_body_round (s : State) :
  logging_file_body strftime_now str_float (ready s)
  = (Returns tt,
     upd_trace
       (trace s ++ [FileWrite (LOGGING_PATH s) "a" (log_line strftime_now str_float s)])
       (upd_clock_reads (S (clock_reads s)) (consumed s)))
  /\ while_true 2 (logging_file_body strftime_now str_float) (ready s)
     = bind (logging_file_body strftime_now str_float)
         (fun _ => bind (logging_file_body strftime_now str_float) (fun _ => ret tt))
         (ready s).
Proof.
  split; [|reflexivity].
  unfold logging_file_body, bind, get_sample, take_sample, gets, modify, item,
    now, emit, py_str, ready, log_line, consumed.
  cbn -[String.append]. reflexivity.
Qed.

End LoggingRounds.

(** ** Further properties of the checksum and of the configuration *)

(** The specification's rounding never meets a tie: the divisor 65535 is
    odd, so the choice of a tie rule plays no part in [thousandths]. *)
Lemma thousandths_no_tie (n : Z) : 2 * (n mod 65535) <> 65535.
Proof. lia. Qed.

(** X1.  A checksum with one bit flipped is rejected. *)
Theorem crc_eval_rejects_bit_flip (b0 b1 i : Z) :
  0 <= b0 < 256 -> 0 <= b1 < 256 -> 0 <= i ->
  crc_eval [b0; b1] (Z.lxor (crc8_spec [b0; b1]) (2 ^ i)) = false.
Proof.
  intros H0 H1 Hi. unfold crc_eval. cbv zeta.
  rewrite crc_package_is_crc8 by assumption.
  generalize (crc8_spec [b0; b1]). intros c.
  destruct (Z.eqb_spec c (Z.lxor c (2 ^ i))) as [E|E]; [|reflexivity].
  exfalso.
  assert (Hbit : Z.testbit c i = Z.testbit (Z.lxor c (2 ^ i)) i) by (rewrite <- E; reflexivity).
  rewrite Z.lxor_spec, Z.pow2_bits_true in Hbit by assumption.
  destruct (Z.testbit c i); discriminate Hbit.
Qed.

Lemma crc_eval_rejects_bit_flip_witness :
  0 <= 0xBE < 256 /\ 0 <= 0xEF < 256 /\ 0 <= 3 /\
  crc_eval [0xBE; 0xEF] (Z.lxor (crc8_spec [0xBE; 0xEF]) (2 ^ 3)) = false.
Proof.
  split; [lia|]. split; [lia|]. split; [lia|].
  apply (crc_eval_rejects_bit_flip 0xBE 0xEF 3); lia.
Defined.

(** X2.  [set_mode("periodic", rate=r)] with a rate outside 0.5, 1, 2, 4, 10
    does not fail: it warns and falls back to rate 1. *)
Theorem set_mode_invalid_rate_falls_back (r : Q) (acc : string) (b : bool) (s : State) :
  valid_rate r = false ->
  fst (set_mode "periodic" (Some r) acc b s) = Returns tt
  /\ rate (snd (set_mode "periodic" (Some r) acc b s)) = 1%Q
  /\ mode (snd (set_mode "periodic" (Some r) acc b s)) = "periodic"
  /\ In (Print ("WARNING: Invalid sample rate argument supplied. Valid options are 0.5, 1, 2, 4 and 10. "
                ++ "Using default value of 1."))
        (trace (snd (set_mode "periodic" (Some r) acc b s))).
Proof.
  intros Hr. unfold set_mode, bind, when, print, emit, modify.
  cbn -[valid_rate valid_accuracy String.append]. rewrite Hr.
  destruct (valid_accuracy acc); destruct b; cbn -[String.append];
    repeat (split; [reflexivity|]);
    repeat (apply in_or_app; first [right; left; reflexivity | left]).
Qed.

Lemma set_mode_invalid_rate_falls_back_witness :
  valid_rate 3 = false /\
  let s := init 0x44 "" "" [] in
  fst (set_mode "periodic" (Some 3%Q) "med" false s) = Returns tt
  /\ rate (snd (set_mode "periodic" (Some 3%Q) "med" false s)) = 1%Q
  /\ mode (snd (set_mode "periodic" (Some 3%Q) "med" false s)) = "periodic"
  /\ In (Print ("WARNING: Invalid sample rate argument supplied. Valid options are 0.5, 1, 2, 4 and 10. "
                ++ "Using default value of 1."))
        (trace (snd (set_mode "periodic" (Some 3%Q) "med" false s))).
Proof.
  split; [reflexivity|].
  apply (set_mode_invalid_rate_falls_back 3 "med" false (init 0x44 "" "" [])).
  reflexivity.
Defined.

(** X3.  [set_mode] with a mode that is neither "single-shot" nor "periodic"
    exits the process and changes nothing. *)
Theorem set_mode_invalid_mode_exits (m : string) (r : option Q) (acc : string)
    (b : bool) (s : State) :
  (m =? "single-shot") = false -> (m =? "periodic") = false ->
  exists msg, set_mode m r acc b s = (Raises (SystemExit msg), s).
Proof.
  intros H1 H2. unfold set_mode. rewrite H1, H2. eexists. reflexivity.
Qed.

Lemma set_mode_invalid_mode_exits_witness :
  ("bogus-mode" =? "single-shot") = false /\ ("bogus-mode" =? "periodic") = false
  /\ exists msg,
       set_mode "bogus-mode" None "med" false (init 0x44 "" "" [])
       = (Raises (SystemExit msg), init 0x44 "" "" []).
Proof.
  split; [reflexivity|]. split; [reflexivity|].
  apply (set_mode_invalid_mode_exits "bogus-mode" None "med" false); reflexivity.
Defined.

(** X4.  [get_temp] and [get_rh] return the stored value whatever the flags
    say, and leave the channel's flag cleared and everything else alone. *)
Theorem accessors_consume_their_flag (degf : bool) (s : State) :
  get_temp degf s = (Returns (temperature_in degf s), upd_Tready false s)
  /\ get_rh s = (Returns (RH s), upd_RHready false s).
Proof.
  unfold get_temp, get_rh, bind, gets, when, modify, temperature_in.
  destruct s as [a m r ac bl t h tf tc rh ix lp cp tr bi cl].
  destruct t, h, degf; split; reflexivity.
Qed.

(** ** Further properties of the driver as a whole *)

(** ** What every method keeps *)

Section Kept.

Context (R : State -> State -> Prop) `{PreOrder State R}.

Lemma keeps_ret {A} (a : A) : keeps R (ret a).
Proof. intros s. reflexivity. Qed.

Lemma keeps_raise {A} (e : PyError) : keeps R (@raise A e).
Proof. intros s. reflexivity. Qed.

Lemma keeps_gets {A} (f : State -> A) : keeps R (gets f).
Proof. intros s. reflexivity. Qed.

Lemma keeps_modify (f : State -> State) :
  (forall s, R s (f s)) -> keeps R (modify f).
Proof. intros Hf s. apply Hf. Qed.

Lemma keeps_bind {A B} (m : M A) (k : A -> M B) :
  keeps R m -> (forall a, keeps R (k a)) -> keeps R (bind m k).
Proof.
  intros Hm Hk s. unfold bind.
  pose proof (Hm s) as H1.
  destruct (m s) as [[a|e] s1]; cbn [snd] in *; [|exact H1].
  transitivity s1; [exact H1|exact (Hk a s1)].
Qed.

Lemma keeps_if {A} (b : bool) (m1 m2 : M A) :
  keeps R m1 -> keeps R m2 -> keeps R (if b then m1 else m2).
Proof. destruct b; auto. Qed.

Lemma keeps_when (b : bool) (m : M unit) : keeps R m -> keeps R (when b m).
Proof. intros Hm. destruct b; [exact Hm|apply keeps_ret]. Qed.

Lemma keeps_item {A} (l : list A) (i : nat) : keeps R (item l i).
Proof. unfold item. destruct (nth_error l i); [apply keeps_ret|apply keeps_raise]. Qed.

Lemma keeps_class_attr (name : string) : keeps R (class_attr name).
Proof.
  unfold class_attr. destruct (assoc name class_attrs); [apply keeps_ret|apply keeps_raise].
Qed.

End Kept.

Create HintDb kept discriminated.

(** One step of a proof that a method keeps a relation: follow the
    structure of the monadic code, closing the leaves with the lemmas
    collected in the database. *)
Ltac kept_step :=
  first
    [ apply keeps_ret; solve [typeclasses eauto]
    | apply keeps_raise; solve [typeclasses eauto]
    | apply keeps_gets; solve [typeclasses eauto]
    | apply keeps_item; solve [typeclasses eauto]
    | apply keeps_class_attr; solve [typeclasses eauto]
    | solve [auto with kept]
    | apply keeps_modify; intros ?; solve [auto with kept]
    | apply keeps_when; [solve [typeclasses eauto]|]
    | apply keeps_if
    | apply keeps_bind; [solve [typeclasses eauto]| |intros ?]
    | match goal with
      | |- keeps _ (match ?x with _ => _ end) => destruct x
      end ].

Ltac kept := cbv zeta; repeat (kept_step; cbv zeta).

(** *** The protocol *)

Lemma on_protocol_refl (s : State) : on_protocol s s.
Proof.
  split; [reflexivity|]. exists []. split; [symmetry; apply app_nil_r|constructor].
Qed.

Lemma on_protocol_trans (a b c : State) :
  on_protocol a b -> on_protocol b c -> on_protocol a c.
Proof.
  intros [Hab (e1 & T1 & F1)] [Hbc (e2 & T2 & F2)].
  split; [congruence|].
  exists (e1 ++ e2)%list. split.
  - rewrite T2, T1. symmetry. apply app_assoc.
  - apply Forall_app. split; [exact F1|]. rewrite <- Hab. exact F2.
Qed.

(** A field update that touches neither the address nor the trace. *)
Lemma on_protocol_quiet (f : State -> State) :
  (forall s, addr (f s) = addr s) -> (forall s, trace (f s) = trace s) ->
  forall s, on_protocol s (f s).
Proof.
  intros Ha Ht s. split; [apply Ha|].
  exists []. split; [rewrite Ht; symmetry; apply app_nil_r|constructor].
Qed.

Lemma proto_emit (e : Event) :
  (forall a, event_ok a e) -> keeps on_protocol (emit e).
Proof.
  intros He s. split; [reflexivity|].
  exists [e]. split; [reflexivity|]. constructor; [apply He|constructor].
Qed.

(** Every entry of the class body is a pair of bytes. *)
Lemma class_attrs_pairs (name : string) (l : list Z) :
  assoc name class_attrs = Some l ->
  exists c v, l = [c; v] /\ table_command c v.
Proof.
  unfold table_command.
  assert (H : Forall (fun l => exists c v, l = [c; v] /\ In [c; v] (map snd class_attrs))
                     (map snd class_attrs)).
  { apply Forall_forall. intros x Hx.
    assert (L : Forall (fun l : list Z => List.length l = 2%nat) (map snd class_attrs))
      by (repeat constructor).
    rewrite Forall_forall in L. specialize (L x Hx).
    destruct x as [|c [|v [|w x]]]; try discriminate L.
    exists c, v. split; [reflexivity|exact Hx]. }
  rewrite Forall_forall in H. intros Hl. apply H.
  clear H. induction class_attrs as [|[k v] rest IH]; [discriminate Hl|].
  cbn [assoc] in Hl. destruct (k =? name).
  - injection Hl as <-. left. reflexivity.
  - right. apply IH. exact Hl.
Qed.

(** A command sent under one attribute name, as every call site but one
    does. *)
Lemma proto_send_command (name : string) :
  keeps on_protocol (send_command name name).
Proof.
  intros s. unfold send_command, bind, gets, class_attr, write_byte_data, emit, modify.
  destruct (assoc name class_attrs) as [l|] eqn:Hl; [|apply on_protocol_refl].
  destruct (class_attrs_pairs name l Hl) as (c & v & -> & Hcv).
  cbn. split; [reflexivity|].
  exists [BusWrite (addr s) c v]. split; [reflexivity|].
  constructor; [split; [reflexivity|exact Hcv]|constructor].
Qed.

(** The call site that names an attribute the class does not have. *)
Lemma proto_send_missing (n0 n1 : string) :
  assoc n0 class_attrs = None -> keeps on_protocol (send_command n0 n1).
Proof.
  intros H s. unfold send_command, bind, gets, class_attr. rewrite H.
  apply on_protocol_refl.
Qed.

Lemma proto_read (cmd n : Z) :
  keeps on_protocol (bind (gets addr) (fun a => read_i2c_block_data a cmd n)).
Proof.
  intros s. unfold read_i2c_block_data, bind, gets, emit, modify. cbn.
  destruct (bus_in s) as [|frame rest]; cbn;
    (split; [reflexivity|]);
    exists [BusRead (addr s) cmd n]; (split; [reflexivity|]);
    (constructor; [reflexivity|constructor]).
Qed.

#[local] Instance on_protocol_preorder : PreOrder on_protocol :=
  {| PreOrder_Reflexive := on_protocol_refl;
     PreOrder_Transitive := on_protocol_trans |}.

#[local] Hint Resolve proto_send_command proto_read : kept.
#[local] Hint Extern 1 (on_protocol _ _) =>
  apply on_protocol_quiet; intros ?; reflexivity : kept.

Lemma proto_print (msg : string) : keeps on_protocol (print msg).
Proof. apply proto_emit. intros a. exact I. Qed.

Lemma proto_sleep (t : Q) : keeps on_protocol (sleep t).
Proof. apply proto_emit. intros a. exact I. Qed.

#[local] Hint Resolve proto_print proto_sleep : kept.

Lemma proto_set_mode m r acc b : keeps on_protocol (set_mode m r acc b).
Proof. unfold set_mode. kept. Qed.

Lemma proto_process_data data : keeps on_protocol (process_data data).
Proof. unfold process_data. kept. Qed.

#[local] Hint Resolve proto_set_mode proto_process_data : kept.

Lemma proto_fetch_data : keeps on_protocol fetch_data.
Proof. unfold fetch_data. kept. Qed.

#[local] Hint Resolve proto_fetch_data : kept.

Lemma keeps_ext (R : State -> State -> Prop) {A} (m m' : M A) :
  (forall s, m s = m' s) -> keeps R m' -> keeps R m.
Proof. intros E Hm s. rewrite E. apply Hm. Qed.

Lemma bind_assoc {A B C} (m : M A) (k : A -> M B) (h : B -> M C) (s : State) :
  bind m (fun a => bind (k a) h) s = bind (bind m k) h s.
Proof.
  unfold bind. destruct (m s) as [[a|e] s1]; [|reflexivity].
  destruct (k a s1) as [[b|e] s2]; reflexivity.
Qed.

(** A block read in the middle of a method: the address read just before
    is the one the read is sent to. *)
Lemma proto_read_then {A} (cmd n : Z) (k : list Z -> M A) :
  (forall data, keeps on_protocol (k data)) ->
  keeps on_protocol (bind (gets addr) (fun a => bind (read_i2c_block_data a cmd n) k)).
Proof.
  intros Hk.
  apply (keeps_ext _ _ (bind (bind (gets addr) (fun a => read_i2c_block_data a cmd n)) k)).
  - intros s. apply bind_assoc.
  - apply keeps_bind; [typeclasses eauto|apply proto_read|exact Hk].
Qed.

Lemma proto_send_pair (p : string * string) :
  names_ok p -> keeps on_protocol (send_command (fst p) (snd p)).
Proof.
  intros [E|E]; [rewrite E; apply proto_send_command|apply proto_send_missing; exact E].
Qed.

Lemma proto_periodic_read (c05 c1 c2 c4 c10 : string * string) :
  names_ok c05 -> names_ok c1 -> names_ok c2 -> names_ok c4 -> names_ok c10 ->
  keeps on_protocol (periodic_read c05 c1 c2 c4 c10).
Proof.
  intros H05 H1 H2 H4 H10. unfold periodic_read.
  pose proof (proto_send_pair _ H05). pose proof (proto_send_pair _ H1).
  pose proof (proto_send_pair _ H2). pose proof (proto_send_pair _ H4).
  pose proof (proto_send_pair _ H10).
  kept; assumption.
Qed.

Lemma proto_single_shot_read (cson csoff : string) :
  keeps on_protocol (single_shot_read cson csoff).
Proof. unfold single_shot_read. kept. Qed.

#[local] Hint Resolve proto_single_shot_read : kept.

Lemma proto_init_read : keeps on_protocol init_read.
Proof.
  unfold init_read. kept;
    apply proto_periodic_read; solve [left; reflexivity | right; reflexivity].
Qed.

#[local] Hint Resolve proto_init_read : kept.

Lemma proto_stop_read : keeps on_protocol stop_read.
Proof. unfold stop_read. kept. Qed.

Lemma proto_isready : keeps on_protocol isready.
Proof. unfold isready. kept. Qed.

Lemma proto_take_sample degf : keeps on_protocol (take_sample degf).
Proof. unfold take_sample. kept. Qed.

#[local] Hint Resolve proto_take_sample : kept.

Lemma proto_get_sample degf : keeps on_protocol (get_sample degf).
Proof. unfold get_sample. kept. Qed.

#[local] Hint Resolve proto_get_sample : kept.

Lemma proto_get_temp degf : keeps on_protocol (get_temp degf).
Proof. unfold get_temp. kept. Qed.

Lemma proto_get_rh : keeps on_protocol get_rh.
Proof. unfold get_rh. kept. Qed.

Lemma proto_toggle_heater state : keeps on_protocol (toggle_heater state).
Proof. unfold toggle_heater. kept. Qed.

Lemma proto_reset : keeps on_protocol reset.
Proof. unfold reset. kept. Qed.

Lemma proto_get_status_byte : keeps on_protocol get_status_byte.
Proof.
  unfold get_status_byte.
  apply keeps_bind; [typeclasses eauto|auto with kept|intros _].
  apply keeps_bind; [typeclasses eauto|auto with kept|intros _].
  apply proto_read_then. intros data. kept.
Qed.

#[local] Hint Resolve proto_get_status_byte : kept.

Lemma proto_alert_status : keeps on_protocol alert_status.
Proof. unfold alert_status. kept. Qed.

Lemma proto_get_alert : keeps on_protocol get_alert.
Proof. unfold get_alert. kept. Qed.

Lemma proto_command_status : keeps on_protocol command_status.
Proof. unfold command_status. kept. Qed.

Lemma proto_chksum_status : keeps on_protocol chksum_status.
Proof. unfold chksum_status. kept. Qed.

Lemma proto_get_heater_status : keeps on_protocol get_heater_status.
Proof. unfold get_heater_status. kept. Qed.

Lemma keeps_while_true (R : State -> State -> Prop) `{PreOrder State R}
    (n : nat) (body : M unit) :
  keeps R body -> keeps R (while_true n body).
Proof.
  intros Hb. induction n as [|n IH]; cbn [while_true].
  - apply keeps_ret. typeclasses eauto.
  - apply keeps_bind; [typeclasses eauto|exact Hb|intros _; exact IH].
Qed.

Section ProtocolOfLogging.

Variable strftime_now : nat -> string.
Variable str_float : float -> string.

Lemma proto_now : keeps on_protocol (now strftime_now).
Proof. unfold now. kept. Qed.

Lemma proto_any_emit (e : Event) :
  (forall a, event_ok a e) -> keeps on_protocol (emit e).
Proof. apply proto_emit. Qed.

Lemma proto_logging_file_body :
  keeps on_protocol (logging_file_body strftime_now str_float).
Proof.
  pose proof proto_now. unfold logging_file_body. kept.
  apply proto_emit. intros ?. exact I.
Qed.

Lemma proto_logging_sql_body tb iv :
  keeps on_protocol (logging_sql_body strftime_now str_float tb iv).
Proof.
  pose proof proto_now. unfold logging_sql_body. kept;
    apply proto_emit; intros ?; exact I.
Qed.

Lemma proto_first_init_read : keeps on_protocol first_init_read.
Proof. unfold first_init_read. kept. Qed.

Lemma proto_start_logging_file n :
  keeps on_protocol (start_logging_file strftime_now str_float n).
Proof.
  pose proof proto_first_init_read.
  pose proof (keeps_while_true on_protocol n _ proto_logging_file_body).
  unfold start_logging_file. kept.
Qed.

Lemma proto_start_logging_sql host port db tb iv n :
  keeps on_protocol (start_logging_sql strftime_now str_float host port db tb iv n).
Proof.
  pose proof proto_first_init_read.
  pose proof (keeps_while_true on_protocol n _ (proto_logging_sql_body tb iv)).
  unfold start_logging_sql. kept.
  apply proto_emit. intros ?. exact I.
Qed.

End ProtocolOfLogging.

(** *** The configuration *)

Lemma same_config_refl (s : State) : same_config s s.
Proof. repeat split; reflexivity. Qed.

Lemma same_config_trans (a b c : State) :
  same_config a b -> same_config b c -> same_config a c.
Proof.
  intros (A1 & A2 & A3 & A4 & A5 & A6 & A7 & A8) (B1 & B2 & B3 & B4 & B5 & B6 & B7 & B8).
  repeat split; congruence.
Qed.

#[local] Instance same_config_preorder : PreOrder same_config :=
  {| PreOrder_Reflexive := same_config_refl;
     PreOrder_Transitive := same_config_trans |}.

#[local] Hint Extern 1 (same_config _ _) => repeat split; reflexivity : kept.

Lemma cfg_emit (e : Event) : keeps same_config (emit e).
Proof. unfold emit. kept. Qed.

#[local] Hint Resolve cfg_emit : kept.

Lemma cfg_print (msg : string) : keeps same_config (print msg).
Proof. apply cfg_emit. Qed.

Lemma cfg_sleep (t : Q) : keeps same_config (sleep t).
Proof. apply cfg_emit. Qed.

Lemma cfg_write (a c v : Z) : keeps same_config (write_byte_data a c v).
Proof. apply cfg_emit. Qed.

Lemma cfg_read (a cmd n : Z) : keeps same_config (read_i2c_block_data a cmd n).
Proof. unfold read_i2c_block_data. kept. Qed.

#[local] Hint Resolve cfg_print cfg_sleep cfg_write cfg_read : kept.

Lemma cfg_send_command (n0 n1 : string) : keeps same_config (send_command n0 n1).
Proof. unfold send_command. kept. Qed.

Lemma cfg_process_data data : keeps same_config (process_data data).
Proof. unfold process_data. kept. Qed.

#[local] Hint Resolve cfg_send_command cfg_process_data : kept.

Lemma cfg_fetch_data : keeps same_config fetch_data.
Proof. unfold fetch_data. kept. Qed.

#[local] Hint Resolve cfg_fetch_data : kept.

Lemma cfg_single_shot_read cson csoff : keeps same_config (single_shot_read cson csoff).
Proof. unfold single_shot_read. kept. Qed.

Lemma cfg_periodic_read c05 c1 c2 c4 c10 :
  keeps same_config (periodic_read c05 c1 c2 c4 c10).
Proof. unfold periodic_read. kept. Qed.

#[local] Hint Resolve cfg_single_shot_read cfg_periodic_read : kept.

Lemma cfg_init_read : keeps same_config init_read.
Proof. unfold init_read. kept. Qed.

Lemma cfg_stop_read : keeps same_config stop_read.
Proof. unfold stop_read. kept. Qed.

Lemma cfg_isready : keeps same_config isready.
Proof. unfold isready. kept. Qed.

Lemma cfg_take_sample degf : keeps same_config (take_sample degf).
Proof. unfold take_sample. kept. Qed.

#[local] Hint Resolve cfg_take_sample : kept.

Lemma cfg_get_sample degf : keeps same_config (get_sample degf).
Proof. unfold get_sample. kept. Qed.

#[local] Hint Resolve cfg_get_sample : kept.

Lemma cfg_get_temp degf : keeps same_config (get_temp degf).
Proof. unfold get_temp. kept. Qed.

Lemma cfg_get_rh : keeps same_config get_rh.
Proof. unfold get_rh. kept. Qed.

Lemma cfg_toggle_heater state : keeps same_config (toggle_heater state).
Proof. unfold toggle_heater. kept. Qed.

Lemma cfg_reset : keeps same_config reset.
Proof. unfold reset. kept. Qed.

Lemma cfg_get_status_byte : keeps same_config get_status_byte.
Proof. unfold get_status_byte. kept. Qed.

#[local] Hint Resolve cfg_get_status_byte : kept.

Lemma cfg_alert_status : keeps same_config alert_status.
Proof. unfold alert_status. kept. Qed.

Lemma cfg_get_alert : keeps same_config get_alert.
Proof. unfold get_alert. kept. Qed.

Lemma cfg_command_status : keeps same_config command_status.
Proof. unfold command_status. kept. Qed.

Lemma cfg_chksum_status : keeps same_config chksum_status.
Proof. unfold chksum_status. kept. Qed.

Lemma cfg_get_heater_status : keeps same_config get_heater_status.
Proof. unfold get_heater_status. kept. Qed.

(** X5.  Whatever the state and whatever the bus delivers, whether the
    method returns or raises, it leaves the trace extended only by events
    the protocol allows: every bus write and every block read goes to the
    object's own address, and every pair of bytes written is a command of
    the class body.  This holds for every method, the configuration and
    logging methods included (the logging loops cut after any number of
    rounds). *)
Theorem driver_stays_on_protocol :
  (forall m r acc b, keeps on_protocol (set_mode m r acc b))
  /\ keeps on_protocol init_read
  /\ keeps on_protocol stop_read
  /\ keeps on_protocol fetch_data
  /\ keeps on_protocol isready
  /\ (forall degf, keeps on_protocol (get_sample degf))
  /\ (forall degf, keeps on_protocol (get_temp degf))
  /\ keeps on_protocol get_rh
  /\ (forall state, keeps on_protocol (toggle_heater state))
  /\ (forall data, keeps on_protocol (process_data data))
  /\ keeps on_protocol reset
  /\ keeps on_protocol alert_status
  /\ keeps on_protocol get_alert
  /\ keeps on_protocol command_status
  /\ keeps on_protocol chksum_status
  /\ keeps on_protocol get_heater_status
  /\ keeps on_protocol get_status_byte
  /\ (forall now_ str_ n, keeps on_protocol (start_logging_file now_ str_ n))
  /\ (forall now_ str_ host port db tb iv n,
        keeps on_protocol (start_logging_sql now_ str_ host port db tb iv n)).
Proof.
  split; [exact proto_set_mode|]. split; [exact proto_init_read|].
  split; [exact proto_stop_read|]. split; [exact proto_fetch_data|].
  split; [exact proto_isready|]. split; [exact proto_get_sample|].
  split; [exact proto_get_temp|]. split; [exact proto_get_rh|].
  split; [exact proto_toggle_heater|]. split; [exact proto_process_data|].
  split; [exact proto_reset|]. split; [exact proto_alert_status|].
  split; [exact proto_get_alert|]. split; [exact proto_command_status|].
  split; [exact proto_chksum_status|]. split; [exact proto_get_heater_status|].
  split; [exact proto_get_status_byte|].
  split; [exact proto_start_logging_file|exact proto_start_logging_sql].
Qed.

(** X6.  Every method other than [set_mode] and the two logging starters
    leaves the configuration alone: address, mode, rate, accuracy,
    blocking and the class variables are the same after the method as
    before, whether it returns or raises. *)
Theorem only_set_mode_configures :
  keeps same_config init_read
  /\ keeps same_config stop_read
  /\ keeps same_config fetch_data
  /\ keeps same_config isready
  /\ (forall degf, keeps same_config (get_sample degf))
  /\ (forall degf, keeps same_config (get_temp degf))
  /\ keeps same_config get_rh
  /\ (forall state, keeps same_config (toggle_heater state))
  /\ (forall data, keeps same_config (process_data data))
  /\ keeps same_config reset
  /\ keeps same_config alert_status
  /\ keeps same_config get_alert
  /\ keeps same_config command_status
  /\ keeps same_config chksum_status
  /\ keeps same_config get_heater_status
  /\ keeps same_config get_status_byte.
Proof.
  split; [exact cfg_init_read|]. split; [exact cfg_stop_read|].
  split; [exact cfg_fetch_data|]. split; [exact cfg_isready|].
  split; [exact cfg_get_sample|]. split; [exact cfg_get_temp|].
  split; [exact cfg_get_rh|]. split; [exact cfg_toggle_heater|].
  split; [exact cfg_process_data|]. split; [exact cfg_reset|].
  split; [exact cfg_alert_status|]. split; [exact cfg_get_alert|].
  split; [exact cfg_command_status|]. split; [exact cfg_chksum_status|].
  split; [exact cfg_get_heater_status|exact cfg_get_status_byte].
Qed.

(** ** The status queries *)

Lemma bit_extract (x k : Z) :
  0 <= k -> Z.shiftr (Z.land x (2 ^ k)) k = Z.b2z (Z.testbit x k).
Proof.
  intros Hk. apply Z.bits_inj'. intros n Hn.
  rewrite Z.shiftr_spec, Z.land_spec, Z.pow2_bits_eqb by lia.
  destruct (Z.eqb_spec k (n + k)) as [E|E].
  - assert (n = 0) by lia. subst n. cbn [Z.add].
    rewrite andb_true_r. destruct (Z.testbit x k); reflexivity.
  - rewrite andb_false_r.
    assert (0 < n) by lia.
    destruct (Z.testbit x k); cbn [Z.b2z]; [|symmetry; apply Z.bits_0].
    change 1 with (2 ^ 0). symmetry. apply Z.pow2_bits_false. lia.
Qed.

Lemma bit0_extract (x : Z) : Z.land x 1 = Z.b2z (Z.testbit x 0).
Proof.
  change 1 with (Z.ones 1). rewrite Z.land_ones by lia.
  symmetry. apply Z.bit0_mod.
Qed.

(** X7.  On a status frame whose checksum holds and whose value is not
    0xFFFF, each query answers from its own bit of the status:
    [alert_status] is bit 15, [get_heater_status] is bit 13,
    [command_status] is the negation of bit 1 and [chksum_status] the
    negation of bit 0. *)
Theorem status_queries_decode_bits (d0 d1 d2 : Z) (rest : list (list Z)) (s : State) :
  bus_in s = [d0; d1; d2] :: rest ->
  crc_eval [d0; d1] d2 = true ->
  word16 d0 d1 <> 0xFFFF ->
  fst (alert_status s) = Returns (Z.testbit (word16 d0 d1) 15)
  /\ fst (get_heater_status s) = Returns (Z.testbit (word16 d0 d1) 13)
  /\ fst (command_status s) = Returns (negb (Z.testbit (word16 d0 d1) 1))
  /\ fst (chksum_status s) = Returns (negb (Z.testbit (word16 d0 d1) 0)).
Proof.
  intros Hbus Hcrc Hne.
  pose proof (get_status_byte_frame d0 d1 d2 rest s Hbus) as Hst.
  rewrite Hcrc in Hst.
  assert (Hs : (word16 d0 d1 =? 0xFFFF)%Z = false) by (apply Z.eqb_neq; exact Hne).
  revert Hst Hs. generalize (word16 d0 d1). intros st Hst Hs.
  unfold alert_status, get_heater_status, command_status, chksum_status, bind.
  rewrite Hst, Hs. cbn [negb].
  change 0x8000 with (2 ^ 15). change 0x2000 with (2 ^ 13). change 0x02 with (2 ^ 1).
  rewrite !bit_extract by lia. rewrite bit0_extract.
  destruct (Z.testbit st 15), (Z.testbit st 13), (Z.testbit st 1), (Z.testbit st 0);
    repeat split; reflexivity.
Qed.

(** The status 0xA003: alert pending, heater on, last command failed,
    last write checksum failed. *)
Lemma status_queries_decode_bits_witness :
  let s := init 0x44 "" "" [[0xA0; 0x03; 0x2D]] in
  bus_in s = [0xA0; 0x03; 0x2D] :: []
  /\ crc_eval [0xA0; 0x03] 0x2D = true
  /\ word16 0xA0 0x03 <> 0xFFFF
  /\ fst (alert_status s) = Returns (Z.testbit (word16 0xA0 0x03) 15)
  /\ fst (get_heater_status s) = Returns (Z.testbit (word16 0xA0 0x03) 13)
  /\ fst (command_status s) = Returns (negb (Z.testbit (word16 0xA0 0x03) 1))
  /\ fst (chksum_status s) = Returns (negb (Z.testbit (word16 0xA0 0x03) 0)).
Proof.
  intro s.
  assert (Hb : bus_in s = [0xA0; 0x03; 0x2D] :: []) by reflexivity.
  assert (Hc : crc_eval [0xA0; 0x03] 0x2D = true) by (vm_compute; reflexivity).
  assert (Hn : word16 0xA0 0x03 <> 0xFFFF) by (vm_compute; discriminate).
  split; [exact Hb|]. split; [exact Hc|]. split; [exact Hn|].
  exact (status_queries_decode_bits 0xA0 0x03 0x2D [] s Hb Hc Hn).
Defined.

(** ** Configuring and starting *)

Lemma valid_accuracy_cases (acc : string) :
  valid_accuracy acc = true -> acc = "med" \/ acc = "low" \/ acc = "high".
Proof.
  unfold valid_accuracy.
  destruct (String.eqb_spec acc "med") as [E|_]; [auto|].
  destruct (String.eqb_spec acc "low") as [E|_]; [auto|].
  destruct (String.eqb_spec acc "high") as [E|_]; [auto|].
  intros H. discriminate H.
Qed.

Lemma valid_rate_cases (r : Q) :
  valid_rate r = true ->
  (r == 1 # 2 \/ r == 1 \/ r == 2 \/ r == 4 \/ r == 10)%Q.
Proof.
  unfold valid_rate.
  destruct (Qeq_bool r (1 # 2)) eqn:E1; [left; apply Qeq_bool_iff; exact E1|].
  destruct (Qeq_bool r 1) eqn:E2; [right; left; apply Qeq_bool_iff; exact E2|].
  destruct (Qeq_bool r 2) eqn:E3; [right; right; left; apply Qeq_bool_iff; exact E3|].
  destruct (Qeq_bool r 4) eqn:E4;
    [right; right; right; left; apply Qeq_bool_iff; exact E4|].
  destruct (Qeq_bool r 10) eqn:E5;
    [right; right; right; right; apply Qeq_bool_iff; exact E5|].
  intros H. discriminate H.
Qed.

Lemma Qeq_bool_left (r q0 q : Q) : (r == q0)%Q -> Qeq_bool r q = Qeq_bool q0 q.
Proof.
  intros E.
  destruct (Qeq_bool r q) eqn:A; destruct (Qeq_bool q0 q) eqn:B; try reflexivity.
  - apply Qeq_bool_iff in A. apply Qeq_bool_neq in B. exfalso. apply B.
    rewrite <- E. exact A.
  - apply Qeq_bool_iff in B. apply Qeq_bool_neq in A. exfalso. apply A.
    rewrite E. exact B.
Qed.

Lemma set_mode_periodic_valid (r : option Q) (acc : string) (b : bool) (s : State) :
  exists s',
    set_mode "periodic" r acc b s = (Returns tt, s')
    /\ mode s' = "periodic"
    /\ valid_accuracy (accuracy s') = true
    /\ valid_rate (rate s') = true.
Proof.
  unfold set_mode, bind, when, print, emit, modify;
    cbn -[valid_rate valid_accuracy String.append].
  destruct r as [q|]; [destruct (valid_rate q) eqn:Hq|];
    destruct (valid_accuracy acc) eqn:Ha; destruct b; cbn -[String.append];
    eexists; (split; [reflexivity|]); cbn -[valid_accuracy valid_rate];
    (split; [reflexivity|]);
    (split; [first [exact Ha | reflexivity]|]);
    first [exact Hq | reflexivity].
Qed.

(** X8.  For the modes "single-shot" and "periodic" [set_mode] returns,
    whatever the other arguments, and leaves a valid configuration: the mode asked for,
    an accuracy among "low", "med", "high" (the one asked for when that
    was valid), in periodic mode a rate among 0.5, 1, 2, 4, 10, and in
    single-shot mode the blocking flag as passed and the rate untouched. *)
Theorem set_mode_establishes_config (m : string) (r : option Q) (acc : string)
    (b : bool) (s : State) :
  m = "single-shot" \/ m = "periodic" ->
  exists s',
    set_mode m r acc b s = (Returns tt, s')
    /\ mode s' = m
    /\ valid_accuracy (accuracy s') = true
    /\ (valid_accuracy acc = true -> accuracy s' = acc)
    /\ (m = "periodic" -> valid_rate (rate s') = true)
    /\ (m = "single-shot" -> blocking s' = b /\ rate s' = rate s).
Proof.
  intros [-> | ->]; unfold set_mode, bind, when, print, emit, modify;
    cbn -[valid_rate valid_accuracy String.append].
  - destruct r; destruct (valid_accuracy acc) eqn:Ha; cbn -[String.append];
      eexists; (split; [reflexivity|]); cbn -[valid_accuracy valid_rate];
      (split; [reflexivity|]);
      (split; [first [exact Ha | reflexivity]|]);
      (split; [intros K; first [reflexivity | congruence]|]);
      (split; [intros K; discriminate K|]);
      intros _; split; reflexivity.
  - destruct r as [q|]; [destruct (valid_rate q) eqn:Hq|];
      destruct (valid_accuracy acc) eqn:Ha; destruct b; cbn -[String.append];
      eexists; (split; [reflexivity|]); cbn -[valid_accuracy valid_rate];
      (split; [reflexivity|]);
      (split; [first [exact Ha | reflexivity]|]);
      (split; [intros K; first [reflexivity | congruence]|]);
      (split; [intros _; first [exact Hq | reflexivity]|]);
      intros K; discriminate K.
Qed.

Lemma set_mode_establishes_config_witness :
  ("periodic" = "single-shot" \/ "periodic" = "periodic")
  /\ exists s',
    set_mode "periodic" (Some 3%Q) "bogus" true (init 0x44 "" "" []) = (Returns tt, s')
    /\ mode s' = "periodic"
    /\ valid_accuracy (accuracy s') = true
    /\ (valid_accuracy "bogus" = true -> accuracy s' = "bogus")
    /\ ("periodic" = "periodic" -> valid_rate (rate s') = true)
    /\ ("periodic" = "single-shot" -> blocking s' = true /\ rate s' = rate (init 0x44 "" "" [])).
Proof.
  split; [right; reflexivity|].
  apply (set_mode_establishes_config "periodic" (Some 3%Q) "bogus" true).
  right. reflexivity.
Defined.

(** [init_read] on a valid periodic configuration. *)
Lemma init_read_periodic (s : State) :
  mode s = "periodic" ->
  valid_accuracy (accuracy s) = true ->
  valid_rate (rate s) = true ->
  exists c0 c1,
    periodic_command (accuracy s) (rate s) = Some (c0, c1)
    /\ init_read s =
       (if (accuracy s =? "high") && Qeq_bool (rate s) (1 # 2)
        then (Raises (AttributeError "PERIODIC_05_MPS_HIGHR"), s)
        else sends c0 c1 s).
Proof.
  intros Hm Ha Hr.
  apply valid_accuracy_cases in Ha. apply valid_rate_cases in Hr.
  unfold init_read, periodic_read, periodic_command, bind, gets.
  rewrite Hm.
  destruct Ha as [Ha | [Ha | Ha]]; rewrite Ha;
    destruct Hr as [Hr | [Hr | [Hr | [Hr | Hr]]]];
    cbn -[Qeq_bool send_command];
    rewrite !(Qeq_bool_left _ _ _ Hr);
    cbn -[send_command]; do 2 eexists; (split; [reflexivity|]); reflexivity.
Qed.

(** X9.  A periodic [set_mode] followed by [init_read] never leaves the
    sensor without a command: whatever the arguments, [set_mode] returns,
    and [init_read] then writes exactly the two bytes the command table
    holds for the accuracy and rate now configured, and nothing else; the
    one exception is accuracy "high" at rate 0.5, where it raises
    [AttributeError] and writes nothing. *)
Theorem periodic_start_sends_table_command (r : option Q) (acc : string) (b : bool)
    (s : State) :
  exists s1 c0 c1,
    set_mode "periodic" r acc b s = (Returns tt, s1)
    /\ periodic_command (accuracy s1) (rate s1) = Some (c0, c1)
    /\ init_read s1 =
       (if (accuracy s1 =? "high") && Qeq_bool (rate s1) (1 # 2)
        then (Raises (AttributeError "PERIODIC_05_MPS_HIGHR"), s1)
        else sends c0 c1 s1).
Proof.
  destruct (set_mode_periodic_valid r acc b s) as (s1 & Hs & Hm & Ha & Hr).
  destruct (init_read_periodic s1 Hm Ha Hr) as (c0 & c1 & Hc & Hi).
  exists s1, c0, c1. split; [exact Hs|]. split; [exact Hc|exact Hi].
Qed.

(** [init_read] on a valid single-shot configuration: the command, and
    with blocking the fetch right after it. *)
Lemma init_read_single_shot (s : State) :
  mode s = "single-shot" ->
  valid_accuracy (accuracy s) = true ->
  exists c0 c1,
    single_shot_command (accuracy s) (blocking s) = Some (c0, c1)
    /\ init_read s =
       (if blocking s
        then fetch_data (upd_trace (trace s ++ [BusWrite (addr s) c0 c1]) s)
        else sends c0 c1 s).
Proof.
  intros Hm Ha. apply valid_accuracy_cases in Ha.
  unfold init_read, single_shot_read, single_shot_command, bind, gets.
  rewrite Hm.
  destruct Ha as [Ha | [Ha | Ha]]; rewrite Ha; cbn -[fetch_data];
    destruct (blocking s); do 2 eexists; (split; [reflexivity|]); reflexivity.
Qed.

(** X10.  Single-shot mode without blocking: [init_read] writes the
    command [SINGLE_SHOT_CSOFF_<accuracy>R] of the configured accuracy and
    returns at once; it reads nothing and leaves both ready flags and the
    stored values as they were. *)
Theorem init_read_non_blocking_only_sends (s : State) :
  mode s = "single-shot" ->
  valid_accuracy (accuracy s) = true ->
  blocking s = false ->
  exists c0 c1,
    single_shot_command (accuracy s) false = Some (c0, c1)
    /\ init_read s =
       (Returns tt, upd_trace (trace s ++ [BusWrite (addr s) c0 c1]) s).
Proof.
  intros Hm Ha Hb.
  destruct (init_read_single_shot s Hm Ha) as (c0 & c1 & Hc & Hi).
  rewrite Hb in Hc, Hi. exists c0, c1. split; [exact Hc|exact Hi].
Qed.

Lemma init_read_non_blocking_only_sends_witness :
  let s := upd_blocking false (init 0x44 "" "" []) in
  mode s = "single-shot"
  /\ valid_accuracy (accuracy s) = true
  /\ blocking s = false
  /\ exists c0 c1,
    single_shot_command (accuracy s) false = Some (c0, c1)
    /\ init_read s =
       (Returns tt, upd_trace (trace s ++ [BusWrite (addr s) c0 c1]) s).
Proof.
  intro s.
  split; [reflexivity|]. split; [reflexivity|]. split; [reflexivity|].
  apply (init_read_non_blocking_only_sends s); reflexivity.
Defined.

(** X11.  Single-shot mode with blocking, a six-byte frame on the bus
    whose two checksums hold: [init_read] writes the command
    [SINGLE_SHOT_CSON_<accuracy>R] of the configured accuracy, sleeps,
    reads the frame and sets both flags; the [get_sample] that follows hands out the two values
    converted from that frame and touches the bus no more. *)
Theorem blocking_init_read_then_get_sample
    (d0 d1 d2 d3 d4 d5 : Z) (rest : list (list Z)) (s : State) :
  mode s = "single-shot" ->
  valid_accuracy (accuracy s) = true ->
  blocking s = true ->
  bus_in s = [d0; d1; d2; d3; d4; d5] :: rest ->
  crc_eval [d0; d1] d2 = true ->
  crc_eval [d3; d4] d5 = true ->
  exists c0 c1 s1,
    single_shot_command (accuracy s) true = Some (c0, c1)
    /\ init_read s = (Returns tt, s1)
    /\ trace s1 = (trace s ++ [BusWrite (addr s) c0 c1; Sleep (5 # 100);
                               BusRead (addr s) 0 6])%list
    /\ bus_in s1 = rest
    /\ forall degf,
         get_sample degf s1
         = (Returns [Some (if degf then raw_to_temp_f (word16 d0 d1)
                           else raw_to_temp_c (word16 d0 d1));
                     Some (raw_to_rh (word16 d3 d4))],
            consumed s1).
Proof.
  intros Hm Ha Hb Hbus Ht Hh.
  destruct (init_read_single_shot s Hm Ha) as (c0 & c1 & Hc & Hi).
  rewrite Hb in Hc, Hi.
  set (s0 := upd_trace (trace s ++ [BusWrite (addr s) c0 c1]) s) in *.
  assert (Hm0 : mode_ok s0) by (left; exact Hm).
  assert (Hbus0 : bus_in s0 = [d0; d1; d2; d3; d4; d5] :: rest) by exact Hbus.
  pose proof (fetch_data_frame d0 d1 d2 d3 d4 d5 rest s0 Hm0 Hbus0) as Hf.
  rewrite Ht, Hh in Hf.
  exists c0, c1. eexists.
  split; [exact Hc|]. split; [rewrite Hi; exact Hf|].
  split.
  { unfold fetched, fetch_events, s0.
    cbn [mode upd_trace upd_bus_in trace addr temperature_stored humidity_stored
         upd_Tready upd_RHready upd_T_degC upd_T_degF upd_RH].
    rewrite Hm. cbn. rewrite <- app_assoc. reflexivity. }
  split; [reflexivity|].
  intros degf. rewrite get_sample_ready by reflexivity.
  destruct degf; reflexivity.
Qed.

Lemma blocking_init_read_then_get_sample_witness :
  let s := init 0x44 "" "" [[0xBE; 0xEF; 0x92; 0xBE; 0xEF; 0x92]] in
  mode s = "single-shot"
  /\ valid_accuracy (accuracy s) = true
  /\ blocking s = true
  /\ bus_in s = [0xBE; 0xEF; 0x92; 0xBE; 0xEF; 0x92] :: []
  /\ crc_eval [0xBE; 0xEF] 0x92 = true
  /\ exists c0 c1 s1,
    single_shot_command (accuracy s) true = Some (c0, c1)
    /\ init_read s = (Returns tt, s1)
    /\ trace s1 = (trace s ++ [BusWrite (addr s) c0 c1; Sleep (5 # 100);
                               BusRead (addr s) 0 6])%list
    /\ bus_in s1 = []
    /\ forall degf,
         get_sample degf s1
         = (Returns [Some (if degf then raw_to_temp_f (word16 0xBE 0xEF)
                           else raw_to_temp_c (word16 0xBE 0xEF));
                     Some (raw_to_rh (word16 0xBE 0xEF))],
            consumed s1).
Proof.
  intro s.
  assert (Hc : crc_eval [0xBE; 0xEF] 0x92 = true) by (vm_compute; reflexivity).
  split; [reflexivity|]. split; [reflexivity|]. split; [reflexivity|].
  split; [reflexivity|]. split; [exact Hc|].
  exact (blocking_init_read_then_get_sample 0xBE 0xEF 0x92 0xBE 0xEF 0x92 [] s
           eq_refl eq_refl eq_refl eq_refl Hc Hc).
Defined.

(** ** Sampling again *)

(** X12.  No reading is handed out twice.  Whenever [get_sample] returns,
    it leaves the two ready flags not both set, so the next [get_sample]
    starts with a fetch: what it returns comes from the state that fetch
    leaves, and when the fetch raises, so does the call. *)
Theorem get_sample_always_refetches (degf : bool) (s : State) r s' :
  get_sample degf s = (Returns r, s') ->
  Tready s' && RHready s' = false
  /\ forall degf',
       get_sample degf' s' =
       match fetch_data s' with
       | (Returns _, s1) =>
           if Tready s1 && RHready s1
           then (Returns [Some (temperature_in degf' s1); Some (RH s1)], consumed s1)
           else (Returns [None; None], s1)
       | (Raises e, s1) => (Raises e, s1)
       end.
Proof.
  intros H.
  assert (Hflags : Tready s' && RHready s' = false).
  { destruct (Tready s && RHready s) eqn:Hr.
    - rewrite (get_sample_ready degf s Hr) in H. injection H as _ <-. reflexivity.
    - rewrite (get_sample_not_ready degf s Hr) in H.
      destruct (fetch_data s) as [[[]|e] s1]; [|discriminate H].
      destruct (Tready s1 && RHready s1) eqn:H1;
        injection H as _ <-; [reflexivity|exact H1]. }
  split; [exact Hflags|].
  intros degf'. apply get_sample_not_ready. exact Hflags.
Qed.

Lemma get_sample_always_refetches_witness :
  let s := ready (init 0x44 "" "" []) in
  get_sample true s = (Returns [Some 0%float; Some 0%float], consumed s)
  /\ Tready (consumed s) && RHready (consumed s) = false
  /\ forall degf',
       get_sample degf' (consumed s) =
       match fetch_data (consumed s) with
       | (Returns _, s1) =>
           if Tready s1 && RHready s1
           then (Returns [Some (temperature_in degf' s1); Some (RH s1)], consumed s1)
           else (Returns [None; None], s1)
       | (Raises e, s1) => (Raises e, s1)
       end.
Proof.
  intro s.
  assert (H : get_sample true s = (Returns [Some 0%float; Some 0%float], consumed s))
    by reflexivity.
  split; [exact H|].
  exact (get_sample_always_refetches true s _ _ H).
Defined.

(** ** Logging *)

Section LoggingWithFrames.

Variable strftime_now : nat -> string.
Variable str_float : float -> string.










End LoggingWithFrames.



(** X14.  The acquisition is started once per process.  With the class
    variable [IDX] at 0, [first_init_read] runs [init_read] and, when that
    returns, sets [IDX] to 1; from then on it does nothing, so a second
    logging start sends no second command.  When [init_read] raises,
    [IDX] stays 0. *)
Theorem first_init_read_once (s : State) :
  IDX s = 0 ->
  (forall s1, init_read s = (Returns tt, s1) ->
     first_init_read s = (Returns tt, upd_IDX 1 s1)
     /\ first_init_read (upd_IDX 1 s1) = (Returns tt, upd_IDX 1 s1))
  /\ (forall e s1, init_read s = (Raises e, s1) ->
        first_init_read s = (Raises e, s1) /\ IDX s1 = 0).
Proof.
  intros H0.
  pose proof (cfg_init_read s) as (_ & _ & _ & _ & _ & Hidx & _).
  unfold first_init_read, bind, gets, when, modify. rewrite H0. cbn [Z.eqb].
  split.
  - intros s1 Hi. rewrite Hi in *. cbn [snd] in Hidx.
    rewrite Hidx, H0. split; reflexivity.
  - intros e s1 Hi. rewrite Hi in *. cbn [snd] in Hidx.
    split; [reflexivity|]. rewrite Hidx. exact H0.
Qed.

Lemma first_init_read_once_witness :
  let s := periodic_config "med" 1 (init 0x44 "" "" []) in
  IDX s = 0
  /\ (forall s1, init_read s = (Returns tt, s1) ->
        first_init_read s = (Returns tt, upd_IDX 1 s1)
        /\ first_init_read (upd_IDX 1 s1) = (Returns tt, upd_IDX 1 s1))
  /\ (forall e s1, init_read s = (Raises e, s1) ->
        first_init_read s = (Raises e, s1) /\ IDX s1 = 0).
Proof.
  intro s. split; [reflexivity|].
  apply (first_init_read_once s). reflexivity.
Defined.

(** ** Starting the log *)

Section StartingTheLog.

Variable strftime_now : nat -> string.
Variable str_float : float -> string.



End StartingTheLog.


(** ** A corrupted payload *)

Local Open Scope Z_scope.

Lemma package_crc_steps (b0 b1 : Z) :
  Crccheck.final
    (Crccheck.process (Crccheck.new 8 0x31 0xFF false false 0x00) [b0; b1])
  = crc8_step (Z.lxor (crc8_step (Z.lxor 0xFF b0)) b1).
Proof.
  unfold Crccheck.final, Crccheck.process, Crccheck.new.
  cbn [Crccheck.value Crccheck.width Crccheck.poly Crccheck.reflect_output
       Crccheck.reflect_input Crccheck.xor_output Crccheck.initvalue].
  cbv zeta.
  change (0 <? - (8 - 8)) with false. cbv iota.
  change (8 - 8) with 0. change (Z.shiftl 1 (8 - 1)) with 128.
  change (Z.lor (Z.shiftl (128 - 1) 1) 1) with 255.
  cbn [fold_left]. unfold Crccheck.process_byte. cbv iota zeta.
  rewrite !Z.shiftl_0_r, Z.lxor_0_r. unfold crc8_step. reflexivity.
Qed.

Lemma step_injective_all : all_from 256 0 step_injective = true.
Proof. vm_compute. reflexivity. Qed.

Lemma land_255_byte (a : Z) : 0 <= Z.land a 255 < 256.
Proof.
  change 255 with (Z.ones 8). rewrite Z.land_ones by lia.
  change (2 ^ 8) with 256. apply Z.mod_pos_bound. lia.
Qed.

Lemma byte_land_255 (a : Z) : 0 <= a < 256 -> Z.land a 255 = a.
Proof.
  intros H. change 255 with (Z.ones 8). rewrite Z.land_ones by lia.
  apply Z.mod_small. exact H.
Qed.

Lemma lxor_byte (a b : Z) : 0 <= a < 256 -> 0 <= b < 256 -> 0 <= Z.lxor a b < 256.
Proof.
  intros Ha Hb.
  assert (E : Z.lxor a b = Z.land (Z.lxor a b) 255).
  { rewrite <- (byte_land_255 a Ha), <- (byte_land_255 b Hb) at 1.
    apply Z.bits_inj'. intros n _.
    rewrite Z.lxor_spec, !Z.land_spec, Z.lxor_spec.
    destruct (Z.testbit a n), (Z.testbit b n), (Z.testbit 255 n); reflexivity. }
  rewrite E. apply land_255_byte.
Qed.

Lemma crc8_step_byte (x : Z) : 0 <= crc8_step x < 256.
Proof. unfold crc8_step. apply land_255_byte. Qed.

Lemma crc8_step_injective (x y : Z) :
  0 <= x < 256 -> 0 <= y < 256 -> crc8_step x = crc8_step y -> x = y.
Proof.
  intros Hx Hy E.
  pose proof (@all_from_spec 256 0 _ step_injective_all x) as Hrow.
  cbv beta in Hrow.
  pose proof (@all_from_spec 256 0 _ (Hrow ltac:(lia)) y) as Hcell.
  cbv beta in Hcell.
  specialize (Hcell ltac:(lia)).
  rewrite E, Z.eqb_refl in Hcell. apply Z.eqb_eq. exact Hcell.
Qed.

Lemma lxor_cancel_l (a b c : Z) : Z.lxor a b = Z.lxor a c -> b = c.
Proof.
  intros E.
  rewrite <- (Z.lxor_0_l b), <- (Z.lxor_0_l c), <- (Z.lxor_nilpotent a),
    !Z.lxor_assoc, E.
  reflexivity.
Qed.

Lemma lxor_cancel_r (a b c : Z) : Z.lxor b a = Z.lxor c a -> b = c.
Proof. rewrite (Z.lxor_comm b a), (Z.lxor_comm c a). apply lxor_cancel_l. Qed.

(** The register after two bytes tells the payloads apart that differ in
    one byte only. *)
Lemma crc8_two_steps_injective (b0 b1 c0 c1 : Z) :
  0 <= b0 < 256 -> 0 <= b1 < 256 -> 0 <= c0 < 256 -> 0 <= c1 < 256 ->
  c0 = b0 \/ c1 = b1 ->
  crc8_step (Z.lxor (crc8_step (Z.lxor 0xFF c0)) c1)
  = crc8_step (Z.lxor (crc8_step (Z.lxor 0xFF b0)) b1) ->
  c0 = b0 /\ c1 = b1.
Proof.
  intros Hb0 Hb1 Hc0 Hc1 Hsame E.
  assert (B255 : 0 <= 255 < 256) by lia.
  apply crc8_step_injective in E;
    [|apply lxor_byte; [apply crc8_step_byte|assumption] ..].
  destruct Hsame as [-> | ->].
  - split; [reflexivity|]. exact (lxor_cancel_l _ _ _ E).
  - split; [|reflexivity]. apply lxor_cancel_r in E.
    apply crc8_step_injective in E; [|apply lxor_byte; assumption ..].
    exact (lxor_cancel_l _ _ _ E).
Qed.

(** X18.  A payload that arrives with one of its two bytes changed, in
    whatever way, is rejected: when the checksum byte matches the payload
    sent, it does not match a payload that differs from it in one byte. *)
Theorem crc_eval_rejects_corrupt_byte (b0 b1 c0 c1 crc : Z) :
  0 <= b0 < 256 -> 0 <= b1 < 256 -> 0 <= c0 < 256 -> 0 <= c1 < 256 ->
  crc_eval [b0; b1] crc = true ->
  c0 = b0 \/ c1 = b1 ->
  (c0, c1) <> (b0, b1) ->
  crc_eval [c0; c1] crc = false.
Proof.
  intros Hb0 Hb1 Hc0 Hc1. unfold crc_eval. cbv zeta.
  rewrite !package_crc_steps.
  pose proof (crc8_two_steps_injective b0 b1 c0 c1 Hb0 Hb1 Hc0 Hc1) as Inj.
  revert Inj.
  generalize (crc8_step (Z.lxor (crc8_step (Z.lxor 255 c0)) c1)).
  generalize (crc8_step (Z.lxor (crc8_step (Z.lxor 255 b0)) b1)).
  intros rb rc Inj Hok Hsame Hne.
  destruct (Z.eqb_spec rb crc) as [Eb|Eb]; [|discriminate Hok].
  destruct (Z.eqb_spec rc crc) as [Ec|Ec]; [|exact eq_refl].
  exfalso. apply Hne.
  destruct (Inj Hsame (eq_trans Ec (eq_sym Eb))) as [-> ->]. exact eq_refl.
Qed.

Lemma crc_eval_rejects_corrupt_byte_witness :
  0 <= 0xBE < 256 /\ 0 <= 0xEF < 256 /\ 0 <= 0xBE < 256 /\ 0 <= 0x10 < 256
  /\ crc_eval [0xBE; 0xEF] 0x92 = true
  /\ (0xBE = 0xBE \/ 0x10 = 0xEF)
  /\ (0xBE, 0x10) <> (0xBE, 0xEF)
  /\ crc_eval [0xBE; 0x10] 0x92 = false.
Proof.
  assert (Hb0 : 0 <= 0xBE < 256) by lia.
  assert (Hb1 : 0 <= 0xEF < 256) by lia.
  assert (Hc1 : 0 <= 0x10 < 256) by lia.
  assert (Hok : crc_eval [0xBE; 0xEF] 0x92 = true) by (vm_compute; reflexivity).
  assert (Hsame : 0xBE = 0xBE \/ 0x10 = 0xEF) by (left; reflexivity).
  assert (Hne : (0xBE, 0x10) <> (0xBE, 0xEF)) by discriminate.
  split; [exact Hb0|]. split; [exact Hb1|]. split; [exact Hb0|]. split; [exact Hc1|].
  split; [exact Hok|]. split; [exact Hsame|]. split; [exact Hne|].
  exact (crc_eval_rejects_corrupt_byte 0xBE 0xEF 0xBE 0x10 0x92
           Hb0 Hb1 Hb0 Hc1 Hok Hsame Hne).
Defined.

(** ** The range of the conversions *)

Lemma round_half_even_monotone (n n' d : Z) :
  0 < d -> n <= n' -> round_half_even n d <= round_half_even n' d.
Proof.
  intros Hd Hn. unfold round_half_even.
  pose proof (Z_div_mod n d ltac:(lia)) as Q.
  pose proof (Z_div_mod n' d ltac:(lia)) as Q'.
  destruct (Z.div_eucl n d) as [q r]. destruct (Z.div_eucl n' d) as [q' r'].
  destruct Q as [E B]. destruct Q' as [E' B'].
  assert (C : q < q' \/ (q = q' /\ r <= r')) by nia.
  destruct C as [C | [<- C]].
  - destruct (Z.compare_spec (2 * r) d), (Z.compare_spec (2 * r') d);
      destruct (Z.even q), (Z.even q'); lia.
  - destruct (Z.compare_spec (2 * r) d), (Z.compare_spec (2 * r') d);
      destruct (Z.even q); lia.
Qed.

Lemma round_half_even_exact (k d : Z) : 0 < d -> round_half_even (k * d) d = k.
Proof.
  intros Hd. unfold round_half_even.
  pose proof (Z_div_mod (k * d) d ltac:(lia)) as Q.
  destruct (Z.div_eucl (k * d) d) as [q r]. destruct Q as [E B].
  assert (q = k /\ r = 0) as [-> ->]
    by (apply (Z.div_mod_unique d q k r 0); [left; lia | left; lia | lia]).
  destruct (Z.compare_spec (2 * 0) d); [lia|reflexivity|lia].
Qed.

Lemma thousandths_monotone (a b c c' : Z) :
  0 <= b -> c <= c' -> thousandths a b c <= thousandths a b c'.
Proof.
  intros Hb Hc. unfold thousandths. apply round_half_even_monotone; nia.
Qed.

Lemma thousandths_ends (a b : Z) :
  thousandths a b 0 = a * 1000 /\ thousandths a b 65535 = (a + b) * 1000.
Proof.
  unfold thousandths. split.
  - replace ((a * 65535 + b * 0) * 1000) with (a * 1000 * 65535) by lia.
    apply round_half_even_exact. lia.
  - replace ((a * 65535 + b * 65535) * 1000) with ((a + b) * 1000 * 65535) by lia.
    apply round_half_even_exact. lia.
Qed.

Lemma thousandths_between (a b c c' : Z) :
  0 <= b -> 0 <= c -> c <= c' -> c' <= 65535 ->
  a * 1000 <= thousandths a b c
  /\ thousandths a b c <= thousandths a b c'
  /\ thousandths a b c' <= (a + b) * 1000.
Proof.
  intros Hb H0 Hc H1.
  destruct (thousandths_ends a b) as [E0 E1].
  rewrite <- E0, <- E1.
  split; [|split]; apply thousandths_monotone; lia.
Qed.

Lemma conversions_in_thousandths (code : Z) :
  0 <= code <= 65535 ->
  raw_to_temp_c code = decimal3 (thousandths (-45) 175 code)
  /\ raw_to_temp_f code = decimal3 (thousandths (-49) 315 code)
  /\ raw_to_rh code = decimal3 (thousandths 0 100 code).
Proof.
  intros H.
  pose proof (conversions_agree_at code H) as A.
  cbv beta in A.
  apply andb_prop in A. destruct A as [A Hrh].
  apply andb_prop in A. destruct A as [Hc Hf].
  apply FloatAxioms.Leibniz.eqb_spec in Hc, Hf, Hrh.
  unfold raw_to_temp_c, raw_to_temp_f, raw_to_rh.
  rewrite !py_round3_shift_eq.
  split; [exact Hc|]. split; [exact Hf|exact Hrh].
Qed.

(** X19.  The readings stay in the range of the sensor and keep the order
    of the raw codes.  For 16-bit codes [c <= c'] the three conversions
    give whole thousandths [k / 1000] (as doubles) with
    -45000 <= k <= k' <= 130000 for degrees Celsius,
    -49000 <= k <= k' <= 266000 for degrees Fahrenheit and
    0 <= k <= k' <= 100000 for the relative humidity. *)
Theorem conversions_bounded_and_ordered (c c' : Z) :
  0 <= c -> c <= c' -> c' <= 65535 ->
  exists tc tc' tf tf' rh rh',
    (raw_to_temp_c c = decimal3 tc /\ raw_to_temp_c c' = decimal3 tc'
     /\ -45000 <= tc /\ tc <= tc' /\ tc' <= 130000)
    /\ (raw_to_temp_f c = decimal3 tf /\ raw_to_temp_f c' = decimal3 tf'
        /\ -49000 <= tf /\ tf <= tf' /\ tf' <= 266000)
    /\ (raw_to_rh c = decimal3 rh /\ raw_to_rh c' = decimal3 rh'
        /\ 0 <= rh /\ rh <= rh' /\ rh' <= 100000).
Proof.
  intros H0 Hc H1.
  destruct (conversions_in_thousandths c ltac:(lia)) as (Ec & Ef & Eh).
  destruct (conversions_in_thousandths c' ltac:(lia)) as (Ec' & Ef' & Eh').
  destruct (thousandths_between (-45) 175 c c' ltac:(lia) H0 Hc H1) as (C1 & C2 & C3).
  destruct (thousandths_between (-49) 315 c c' ltac:(lia) H0 Hc H1) as (F1 & F2 & F3).
  destruct (thousandths_between 0 100 c c' ltac:(lia) H0 Hc H1) as (R1 & R2 & R3).
  exists (thousandths (-45) 175 c), (thousandths (-45) 175 c'),
    (thousandths (-49) 315 c), (thousandths (-49) 315 c'),
    (thousandths 0 100 c), (thousandths 0 100 c').
  split; [|split].
  - split; [exact Ec|]. split; [exact Ec'|]. split; [exact C1|]. split; [exact C2|exact C3].
  - split; [exact Ef|]. split; [exact Ef'|]. split; [exact F1|]. split; [exact F2|exact F3].
  - split; [exact Eh|]. split; [exact Eh'|]. split; [exact R1|]. split; [exact R2|exact R3].
Qed.

Lemma conversions_bounded_and_ordered_witness :
  0 <= 100 /\ 100 <= 40000 /\ 40000 <= 65535
  /\ exists tc tc' tf tf' rh rh',
    (raw_to_temp_c 100 = decimal3 tc /\ raw_to_temp_c 40000 = decimal3 tc'
     /\ -45000 <= tc /\ tc <= tc' /\ tc' <= 130000)
    /\ (raw_to_temp_f 100 = decimal3 tf /\ raw_to_temp_f 40000 = decimal3 tf'
        /\ -49000 <= tf /\ tf <= tf' /\ tf' <= 266000)
    /\ (raw_to_rh 100 = decimal3 rh /\ raw_to_rh 40000 = decimal3 rh'
        /\ 0 <= rh /\ rh <= rh' /\ rh' <= 100000).
Proof.
  split; [lia|]. split; [lia|]. split; [lia|].
  apply (conversions_bounded_and_ordered 100 40000); lia.
Defined.

(** ** The export script *)

Local Open Scope string_scope.

Section SensorDataExportFacts.
Import SensorDataExport.










Variable fetch_row : string -> list Row.





(** X17.  [main] exits through [sys.exit()] exactly when the file or the
    table argument is missing, and then it has printed the usage message
    and done nothing else: no connection, no query, no file. *)
Theorem main_usage_guard (args : Namespace) :
  (file args = None \/ table args = None)
  <-> main fetch_row args []
      = (Raises SystemExit, [Print "Must provide file path [-f] and data table [-t]"]).
Proof.
  unfold main. split.
  - intros [H|H]; rewrite H; [|destruct (file args)]; reflexivity.
  - destruct (file args) as [fpath|]; [|intros _; left; reflexivity].
    destruct (table args) as [tb|]; [|intros _; right; reflexivity].
    cbv zeta. unfold bind, emit, with_open. cbn [app].
    destruct (for_each _ _ _) as [[[]|e] t]; intros H; exfalso.
    + discriminate H.
    + injection H as _ H.
      destruct t as [|e0 [|e1 t]]; discriminate H.
Qed.

End SensorDataExportFacts.

Section SensorDataExportRuns.
Import SensorDataExport.



End SensorDataExportRuns.
